(** * Workout statistics (running, walking, swimming): a shallow embedding of
    [main.go] and the properties of its distance, speed, calorie and report
    computations.

    Numeric model.  Go's [float64] is the kernel's binary64 type [float]
    ([PrimFloat]), whose operations are specified by [SpecFloat] through the
    library's [FloatAxioms]; every operation rounds to nearest, ties to even,
    and is performed separately (no fused multiply-add, as on amd64).  Go's
    [int] and [int64] are [Z] values in the signed 64-bit range, with the
    wrap-around of the product written out.  Untyped constants are converted
    to [float64] where they meet a [float64] operand, as Go does. *)

From Stdlib Require Import ZArith Lia Bool String Ascii List.
From Stdlib Require Import Floats.

Set Warnings "-inexact-float".

Local Open Scope Z_scope.

(** ** Signed 64-bit integers *)

Module Int64.

Definition min_int : Z := - 2 ^ 63.
Definition max_int : Z := 2 ^ 63 - 1.

Definition in_range (z : Z) : Prop := min_int <= z <= max_int.

(** Two's complement wrap-around of an exact result. *)
Definition wrap (z : Z) : Z := (z + 2 ^ 63) mod 2 ^ 64 - 2 ^ 63.

(** [a * b] on [int]. *)
Definition mul (a b : Z) : Z := wrap (a * b).

(** The conversion [float64(z)]: the nearest binary64 value, ties to even. *)
Definition to_float64 (z : Z) : float :=
  SF2Prim (binary_normalize prec emax z 0 false).

End Int64.

(** ** The parts of Go's library the program calls *)

(** [time.Duration] is an [int64] count of nanoseconds. *)
Module time.

Definition Duration : Type := Z.

Definition Nanosecond : Duration := 1.
Definition Microsecond : Duration := 1000 * Nanosecond.
Definition Millisecond : Duration := 1000 * Microsecond.
Definition Second : Duration := 1000 * Millisecond.
Definition Minute : Duration := 60 * Second.
Definition Hour : Duration := 60 * Minute.

(** [d.Hours()]: whole hours plus the fraction of the last one; integer
    division and remainder truncate toward zero. *)
Definition Hours (d : Duration) : float :=
  let hour := Z.quot d Hour in
  let nsec := Z.rem d Hour in
  (Int64.to_float64 hour + Int64.to_float64 nsec / 3600000000000)%float.

(** [d.Minutes()]. *)
Definition Minutes (d : Duration) : float :=
  let min := Z.quot d Minute in
  let nsec := Z.rem d Minute in
  (Int64.to_float64 min + Int64.to_float64 nsec / 60000000000)%float.

End time.

(** [math.Pow] and the two [fmt] verbs applied to a [float64] are library
    code; the program is embedded over any implementation of them. *)
Class GoLib : Type := {
  math_Pow : float -> float -> float;   (* math.Pow(x, y) *)
  fmt_v : float -> string;              (* the verb %v *)
  fmt_2f : float -> string              (* the verb %.2f *)
}.

(** ** Constants *)

Definition MInKm : Z := 1000.
Definition MinInHours : Z := 60.
Definition LenStep : float := 0.65%float.
Definition CmInM : Z := 100.

Definition CaloriesMeanSpeedMultiplier : Z := 18.
Definition CaloriesMeanSpeedShift : float := 1.79%float.

Definition CaloriesWeightMultiplier : float := 0.035%float.
Definition CaloriesSpeedHeightMultiplier : float := 0.029%float.
Definition KmHInMsec : float := 0.278%float.

Definition SwimmingLenStep : float := 1.38%float.
Definition SwimmingCaloriesMeanSpeedShift : float := 1.1%float.
Definition SwimmingCaloriesWeightMultiplier : Z := 2.

(** An untyped integer constant used as a [float64] operand. *)
Definition const (z : Z) : float := Int64.to_float64 z.

(** ** The report structure *)

Module InfoMessage.

Record t : Type := Build {
  TrainingType : string;
  Duration : time.Duration;
  Distance : float;
  Speed : float;
  Calories : float
}.

(** The assignment [i.Speed = v]. *)
Definition set_Speed (i : t) (v : float) : t :=
  Build (TrainingType i) (Duration i) (Distance i) v (Calories i).

(** The assignment [i.Calories = v]. *)
Definition set_Calories (i : t) (v : float) : t :=
  Build (TrainingType i) (Duration i) (Distance i) (Speed i) v.

Definition nl : string := String (ascii_of_nat 10) EmptyString.

(** [i.String()]: the five lines of the rendered report. *)
Definition String `{GoLib} (i : t) : string :=
  ("Тип тренировки: " ++ TrainingType i ++ nl ++
   "Длительность: " ++ fmt_v (time.Minutes (Duration i)) ++ " мин" ++ nl ++
   "Дистанция: " ++ fmt_2f (Distance i) ++ " км." ++ nl ++
   "Ср. скорость: " ++ fmt_2f (Speed i) ++ " км/ч" ++ nl ++
   "Потрачено ккал: " ++ fmt_2f (Calories i) ++ nl)%string.

End InfoMessage.

(** ** The common part of every training *)

Module Training.

Record t : Type := Build {
  TrainingType : string;
  Action : Z;
  LenStep : float;
  Duration : time.Duration;
  Weight : float
}.

Definition distance (t : t) : float :=
  (Int64.to_float64 (Action t) * LenStep t / const MInKm)%float.

Definition meanSpeed (t : t) : float :=
  if (time.Hours (Duration t) =? 0)%float then 0%float
  else (distance t / time.Hours (Duration t))%float.

Definition Calories (t : t) : float := 0%float.

Definition TrainingInfo (t : t) : InfoMessage.t :=
  InfoMessage.Build (TrainingType t) (Duration t) (distance t)
                    (meanSpeed t) (Calories t).

End Training.

(** ** Running *)

Module Running.

Record t : Type := Build { Training : Training.t }.

(** Promoted through the embedded [Training]. *)
Definition distance (r : t) : float := Training.distance (Training r).

(** Promoted through the embedded [Training]. *)
Definition meanSpeed (r : t) : float := Training.meanSpeed (Training r).

Definition Calories (r : t) : float :=
  let speed := meanSpeed r in
  let duration := time.Hours (Training.Duration (Training r)) in
  ((const CaloriesMeanSpeedMultiplier * speed + CaloriesMeanSpeedShift)
     * Training.Weight (Training r) / const MInKm
     * duration * const MinInHours)%float.

Definition TrainingInfo (r : t) : InfoMessage.t :=
  Training.TrainingInfo (Training r).

End Running.

(** ** Walking *)

Module Walking.

Record t : Type := Build { Training : Training.t; Height : float }.

(** Promoted through the embedded [Training]. *)
Definition distance (w : t) : float := Training.distance (Training w).

(** Promoted through the embedded [Training]. *)
Definition meanSpeed (w : t) : float := Training.meanSpeed (Training w).

Definition Calories `{GoLib} (w : t) : float :=
  let speedMinSec := (meanSpeed w * KmHInMsec)%float in
  let duration := time.Hours (Training.Duration (Training w)) in
  let height := (Height w / const CmInM)%float in
  ((CaloriesWeightMultiplier * Training.Weight (Training w)
    + (math_Pow speedMinSec 2 / height)
      * CaloriesSpeedHeightMultiplier * Training.Weight (Training w))
     * duration * const MinInHours)%float.

Definition TrainingInfo (w : t) : InfoMessage.t :=
  Training.TrainingInfo (Training w).

End Walking.

(** ** Swimming *)

Module Swimming.

Record t : Type := Build {
  Training : Training.t;
  LengthPool : Z;
  CountPool : Z
}.

(** Declared on [Swimming]; it hides the promoted [Training.meanSpeed]. *)
Definition meanSpeed (s : t) : float :=
  let duration := time.Hours (Training.Duration (Training s)) in
  if (duration =? 0)%float then 0%float
  else (Int64.to_float64 (Int64.mul (LengthPool s) (CountPool s))
          / const MInKm / duration)%float.

Definition Calories (s : t) : float :=
  let speed := meanSpeed s in
  let duration := time.Hours (Training.Duration (Training s)) in
  ((speed + SwimmingCaloriesMeanSpeedShift)
     * const SwimmingCaloriesWeightMultiplier
     * Training.Weight (Training s) * duration)%float.

Definition TrainingInfo (s : t) : InfoMessage.t :=
  let trainingInfo := Training.TrainingInfo (Training s) in
  InfoMessage.set_Speed trainingInfo (meanSpeed s).

End Swimming.

(** ** The interface and the dispatch *)

Class CaloriesCalculator (T : Type) : Type := {
  Calories : T -> float;
  TrainingInfo : T -> InfoMessage.t
}.

#[export] Instance Running_CaloriesCalculator : CaloriesCalculator Running.t :=
  {| Calories := Running.Calories; TrainingInfo := Running.TrainingInfo |}.

#[export] Instance Walking_CaloriesCalculator `{GoLib} :
  CaloriesCalculator Walking.t :=
  {| Calories := Walking.Calories; TrainingInfo := Walking.TrainingInfo |}.

#[export] Instance Swimming_CaloriesCalculator : CaloriesCalculator Swimming.t :=
  {| Calories := Swimming.Calories; TrainingInfo := Swimming.TrainingInfo |}.

(** [fmt.Sprint] of a value with a [String] method is that method's result. *)
Definition fmt_Sprint `{GoLib} (info : InfoMessage.t) : string :=
  InfoMessage.String info.

Definition ReadData {T : Type} `{GoLib} `{CaloriesCalculator T} (training : T)
  : string :=
  let calories := Calories training in
  let info := TrainingInfo training in
  let info := InfoMessage.set_Calories info calories in
  fmt_Sprint info.

(** The value of [info] when [ReadData] hands it to [fmt.Sprint]. *)
Definition ReadData_info {T : Type} `{CaloriesCalculator T} (training : T)
  : InfoMessage.t :=
  let calories := Calories training in
  let info := TrainingInfo training in
  InfoMessage.set_Calories info calories.

(** ** The three sessions of [main] *)

Definition swimming : Swimming.t :=
  Swimming.Build
    (Training.Build "Плавание" 2000 SwimmingLenStep (90 * time.Minute) 85)
    50 5.

Definition walking : Walking.t :=
  Walking.Build
    (Training.Build "Ходьба" 20000 LenStep
                    (3 * time.Hour + 45 * time.Minute) 85)
    185.

Definition running : Running.t :=
  Running.Build
    (Training.Build "Бег" 5000 LenStep (30 * time.Minute) 85).

(** ** The formulas as the specification words them

    Each definition follows the text of the specification, over [float64]
    values, with the operations taken left to right. *)

Module Spec.

Local Open Scope float_scope.

Definition distance (actionCount stepLength : float) : float :=
  actionCount * stepLength / 1000.

Definition meanSpeed (distance durationHours : float) : float :=
  if durationHours =? 0 then 0 else distance / durationHours.

Definition swimming_meanSpeed (poolLengthM poolCrossings : Z)
           (durationHours : float) : float :=
  if durationHours =? 0 then 0
  else Int64.to_float64 (Int64.mul poolLengthM poolCrossings)
       / 1000 / durationHours.

Definition running_calories (meanSpeed weightKg durationHours : float)
  : float :=
  (18 * meanSpeed + 1.79) * weightKg / 1000 * durationHours * 60.

Definition walking_calories `{GoLib}
           (meanSpeed weightKg heightCm durationHours : float) : float :=
  let speedMs := meanSpeed * 0.278 in
  let heightM := heightCm / 100 in
  (0.035 * weightKg + (math_Pow speedMs 2 / heightM) * 0.029 * weightKg)
  * durationHours * 60.

Definition swimming_calories (meanSpeed weightKg durationHours : float)
  : float :=
  (meanSpeed + 1.1) * 2 * weightKg * durationHours.

(** [x] is [y] up to [tol]: [|x - y| <= tol].  Two values that agree once
    displayed with two decimals, the only rounding the program applies,
    differ by at most [0.005]. *)
Definition approx (tol x y : float) : bool := abs (x - y) <=? tol.

End Spec.

(** [i] carries the calories [calories] and every other field of [report]. *)
Definition assembled_from (i : InfoMessage.t) (calories : float)
           (report : InfoMessage.t) : Prop :=
  InfoMessage.Calories i = calories /\
  InfoMessage.TrainingType i = InfoMessage.TrainingType report /\
  InfoMessage.Duration i = InfoMessage.Duration report /\
  InfoMessage.Distance i = InfoMessage.Distance report /\
  InfoMessage.Speed i = InfoMessage.Speed report.

(** A swimming session that lasts no time at all. *)
Definition swimming_no_time : Swimming.t :=
  Swimming.Build (Training.Build "Плавание" 2000 SwimmingLenStep 0 85) 50 5.

(** A running session that lasts no time at all. *)
Definition running_no_time : Training.t :=
  Training.Build "Бег" 5000 LenStep 0 85.

(** ** Sessions that differ in the number of actions only *)

(** The session [t] with [a] actions, every other field unchanged. *)
Definition with_Action (t : Training.t) (a : Z) : Training.t :=
  Training.Build (Training.TrainingType t) a (Training.LenStep t)
                 (Training.Duration t) (Training.Weight t).

Definition Running_with_Action (r : Running.t) (a : Z) : Running.t :=
  Running.Build (with_Action (Running.Training r) a).

Definition Walking_with_Action (w : Walking.t) (a : Z) : Walking.t :=
  Walking.Build (with_Action (Walking.Training w) a) (Walking.Height w).

(** A step length of ordinary magnitude: [2^-948 <= |x| < 2^953].  Zero,
    subnormal numbers, infinities and NaN are excluded. *)
Definition moderate (x : float) : bool :=
  ((0x1p-948 <=? abs x) && (abs x <? 0x1p953))%float.

(** One walking step of 1500 times the least positive [float64]. *)
Definition walking_tiny_step : Walking.t :=
  Walking.Build
    (Training.Build "Ходьба" 1 0x1.77p-1064 (30 * time.Minute) 85) 185.

(** One running step as long as the largest finite [float64]. *)
Definition running_huge_step : Running.t :=
  Running.Build
    (Training.Build "Бег" 1 0x1.fffffffffffffp+1023 (30 * time.Minute) 85).

(** ** Notions for the analysis of rounding *)

(** The number of binary digits of a mantissa. *)
Definition digits (p : positive) : Z := Zpos (digits2_pos p).

(** The record part of [shr]: [mrs] shifted right by [n] places. *)
Definition shr_by (mrs : shr_record) (n : Z) : shr_record := fst (shr mrs 0 n).

(** The number [2]. *)
Definition SFtwo : spec_float := S754_finite false 4503599627370496 (-51).

(** ** Notions for the range of the results *)

(** [x] is a zero, a finite number or an infinity of sign [s]. *)
Definition SFsigned (s : bool) (x : spec_float) : Prop :=
  x = S754_zero s \/ (exists m e, x = S754_finite s m e) \/ x = S754_infinity s.

(** Zero of either sign, or a positive finite number. *)
Definition SFfinite_nonneg (x : spec_float) : bool :=
  match x with
  | S754_zero _ | S754_finite false _ _ => true
  | _ => false
  end.

(** Zero of either sign, a positive finite number or [+Inf]. *)
Definition SFnonneg (x : spec_float) : bool :=
  match x with
  | S754_zero _ | S754_finite false _ _ | S754_infinity false => true
  | _ => false
  end.

(** A finite [float64] that is not negative. *)
Definition nonneg_finite (x : float) : bool :=
  ((0 <=? x) && (x <? infinity))%float.

(** A finite [float64] above zero. *)
Definition positive_finite (x : float) : bool :=
  ((0 <? x) && (x <? infinity))%float.

Definition Swimming_with_Action (s : Swimming.t) (a : Z) : Swimming.t :=
  Swimming.Build (with_Action (Swimming.Training s) a)
                 (Swimming.LengthPool s) (Swimming.CountPool s).

(** A walking session without a single step. *)
Definition walking_no_step : Training.t :=
  Training.Build "Ходьба" 0 LenStep (30 * time.Minute) 85.

(** ** The entry point *)

(** [fmt.Println] of a string writes it and a line feed. *)
Definition fmt_Println (s : string) : string := (s ++ InfoMessage.nl)%string.

(** What [main] writes to the standard output. *)
Definition main `{GoLib} : string :=
  (fmt_Println (ReadData swimming)
   ++ fmt_Println (ReadData walking)
   ++ fmt_Println (ReadData running))%string.

(** * Properties *)

(** ** Constants as [float64] operands *)

Lemma const_MInKm : const MInKm = 1000%float.
Proof. reflexivity. Qed.

Lemma const_MinInHours : const MinInHours = 60%float.
Proof. reflexivity. Qed.

Lemma const_CmInM : const CmInM = 100%float.
Proof. reflexivity. Qed.

Lemma const_CaloriesMeanSpeedMultiplier :
  const CaloriesMeanSpeedMultiplier = 18%float.
Proof. reflexivity. Qed.

Lemma const_SwimmingCaloriesWeightMultiplier :
  const SwimmingCaloriesWeightMultiplier = 2%float.
Proof. reflexivity. Qed.

Lemma Hours_zero : time.Hours 0 = 0%float.
Proof. reflexivity. Qed.

Lemma Int64_mul_exact (a b : Z) :
  Int64.in_range (a * b) -> Int64.mul a b = a * b.
Proof.
  unfold Int64.in_range, Int64.min_int, Int64.max_int, Int64.mul, Int64.wrap.
  intros H. rewrite Z.mod_small; lia.
Qed.

(** Two values that compare different, one of them not NaN, are different. *)
Lemma float_neq (x y : float) :
  (x =? x)%float = true -> (x =? y)%float = false -> x <> y.
Proof. intros Hx Hxy E. subst y. congruence. Qed.

(** ** The report assembled by [ReadData] *)

Lemma ReadData_info_assembled {T : Type} `{CaloriesCalculator T} (v : T) :
  assembled_from (ReadData_info v) (Calories v) (TrainingInfo v).
Proof. unfold assembled_from, ReadData_info. simpl. repeat split. Qed.

(** C1. For each of Running, Walking and Swimming, the report that [ReadData]
    renders has the calories computed by that variant's own [Calories]
    method, and the kind, duration, distance and speed of that variant's own
    [TrainingInfo] result. *)
Theorem ReadData_report `{GoLib} :
  (forall r : Running.t,
      assembled_from (ReadData_info r) (Running.Calories r)
                     (Running.TrainingInfo r) /\
      ReadData r = InfoMessage.String (ReadData_info r)) /\
  (forall w : Walking.t,
      assembled_from (ReadData_info w) (Walking.Calories w)
                     (Walking.TrainingInfo w) /\
      ReadData w = InfoMessage.String (ReadData_info w)) /\
  (forall s : Swimming.t,
      assembled_from (ReadData_info s) (Swimming.Calories s)
                     (Swimming.TrainingInfo s) /\
      ReadData s = InfoMessage.String (ReadData_info s)).
Proof.
  repeat split; try reflexivity.
Qed.

(** ** Swimming's report *)

(** C2. The report of a Swimming session is the base report with the speed
    replaced by the swimming mean speed: the distance is
    [actionCount * stepLength / 1000] whatever the pool length and the number
    of crossings, the speed is [Swimming.meanSpeed], and the kind, duration
    and calories are those of the base report. *)
Theorem Swimming_TrainingInfo_frame (s : Swimming.t) :
  let base := Training.TrainingInfo (Swimming.Training s) in
  let info := Swimming.TrainingInfo s in
  info = InfoMessage.set_Speed base (Swimming.meanSpeed s) /\
  InfoMessage.Distance info =
    Spec.distance (Int64.to_float64 (Training.Action (Swimming.Training s)))
                  (Training.LenStep (Swimming.Training s)) /\
  (forall lengthPool countPool : Z,
      InfoMessage.Distance
        (Swimming.TrainingInfo
           (Swimming.Build (Swimming.Training s) lengthPool countPool))
      = InfoMessage.Distance info) /\
  InfoMessage.Speed info = Swimming.meanSpeed s /\
  InfoMessage.TrainingType info = InfoMessage.TrainingType base /\
  InfoMessage.Duration info = InfoMessage.Duration base /\
  InfoMessage.Calories info = InfoMessage.Calories base.
Proof.
  cbv zeta. repeat split.
Qed.

(** ** Mean speed *)

(** C3. The swimming mean speed is
    [(poolLengthM * poolCrossings) / 1000 / durationHours] when the duration
    in hours is not zero, and [0] when it is; the product is the one of Go's
    [int], which is the exact product whenever that fits in 64 bits. *)
Theorem Swimming_meanSpeed_formula (s : Swimming.t) :
  let durationHours := time.Hours (Training.Duration (Swimming.Training s)) in
  ((durationHours =? 0)%float = false ->
   Swimming.meanSpeed s =
     (Int64.to_float64 (Int64.mul (Swimming.LengthPool s) (Swimming.CountPool s))
      / 1000 / durationHours)%float) /\
  ((durationHours =? 0)%float = false ->
   Int64.in_range (Swimming.LengthPool s * Swimming.CountPool s) ->
   Swimming.meanSpeed s =
     (Int64.to_float64 (Swimming.LengthPool s * Swimming.CountPool s)
      / 1000 / durationHours)%float) /\
  ((durationHours =? 0)%float = true -> Swimming.meanSpeed s = 0%float) /\
  Swimming.meanSpeed s =
    Spec.swimming_meanSpeed (Swimming.LengthPool s) (Swimming.CountPool s)
                            durationHours.
Proof.
  cbv zeta. unfold Swimming.meanSpeed, Spec.swimming_meanSpeed.
  rewrite const_MInKm.
  repeat split; intros.
  - rewrite H. reflexivity.
  - rewrite H, Int64_mul_exact by assumption. reflexivity.
  - rewrite H. reflexivity.
Qed.

Lemma Swimming_meanSpeed_formula_witness :
  Swimming.meanSpeed swimming = (Int64.to_float64 250 / 1000 / 1.5)%float /\
  Swimming.meanSpeed swimming_no_time = 0%float.
Proof.
  split.
  - refine (proj1 (proj2 (Swimming_meanSpeed_formula swimming)) _ _).
    + reflexivity.
    + vm_compute. split; discriminate.
  - refine (proj1 (proj2 (proj2 (Swimming_meanSpeed_formula swimming_no_time)))
                  _).
    reflexivity.
Defined.

(** C7. A session whose duration is zero has mean speed [0], by the base
    computation and by the swimming one alike: the test on the duration in
    hours returns before any division.  When the duration in hours is not
    zero the base mean speed is [distance() / durationHours]. *)
Theorem meanSpeed_zero_duration :
  (forall t : Training.t,
      Training.Duration t = 0 -> Training.meanSpeed t = 0%float) /\
  (forall s : Swimming.t,
      Training.Duration (Swimming.Training s) = 0 ->
      Swimming.meanSpeed s = 0%float) /\
  (forall r : Running.t,
      Training.Duration (Running.Training r) = 0 ->
      Running.meanSpeed r = 0%float) /\
  (forall w : Walking.t,
      Training.Duration (Walking.Training w) = 0 ->
      Walking.meanSpeed w = 0%float) /\
  (forall t : Training.t,
      (time.Hours (Training.Duration t) =? 0)%float = true ->
      Training.meanSpeed t = 0%float) /\
  (forall t : Training.t,
      (time.Hours (Training.Duration t) =? 0)%float = false ->
      Training.meanSpeed t =
        (Training.distance t / time.Hours (Training.Duration t))%float) /\
  (forall t : Training.t,
      Training.meanSpeed t =
        Spec.meanSpeed (Training.distance t)
                       (time.Hours (Training.Duration t))).
Proof.
  unfold Running.meanSpeed, Walking.meanSpeed.
  unfold Training.meanSpeed, Swimming.meanSpeed, Spec.meanSpeed.
  repeat split; intros.
  - rewrite H, Hours_zero. reflexivity.
  - cbv zeta. rewrite H, Hours_zero. reflexivity.
  - rewrite H, Hours_zero. reflexivity.
  - rewrite H, Hours_zero. reflexivity.
  - rewrite H. reflexivity.
  - rewrite H. reflexivity.
Qed.

Lemma meanSpeed_zero_duration_witness :
  Training.meanSpeed running_no_time = 0%float /\
  Swimming.meanSpeed swimming_no_time = 0%float /\
  Training.meanSpeed (Running.Training running) = (3.25 / 0.5)%float.
Proof.
  destruct meanSpeed_zero_duration as (Hbase & Hswim & _ & _ & _ & Hdiv & _).
  split; [| split].
  - apply (Hbase running_no_time). reflexivity.
  - apply (Hswim swimming_no_time). reflexivity.
  - apply (Hdiv (Running.Training running)). reflexivity.
Defined.

(** ** Distance *)

(** C8. The distance of a session is [actionCount * stepLength / 1000]; it is
    a total function of the session, and the distance every variant reports
    is this one. *)
Theorem distance_formula :
  (forall t : Training.t,
      Training.distance t =
        Spec.distance (Int64.to_float64 (Training.Action t))
                      (Training.LenStep t)) /\
  (forall r : Running.t,
      InfoMessage.Distance (Running.TrainingInfo r) =
        Training.distance (Running.Training r)) /\
  (forall w : Walking.t,
      InfoMessage.Distance (Walking.TrainingInfo w) =
        Training.distance (Walking.Training w)) /\
  (forall s : Swimming.t,
      InfoMessage.Distance (Swimming.TrainingInfo s) =
        Training.distance (Swimming.Training s)).
Proof.
  split.
  - intros t. unfold Training.distance, Spec.distance.
    rewrite const_MInKm. reflexivity.
  - repeat split.
Qed.

(** ** Calories *)

(** C4. The calories of a Running session are
    [(18 * meanSpeed() + 1.79) * weightKg / 1000 * durationHours * 60] with
    the base mean speed; with 5000 steps of 0.65 m in half an hour at 85 kg
    that is [(18*6.5+1.79)*85/1000*0.5*60]. *)
Theorem Running_Calories_formula (r : Running.t) :
  Running.Calories r =
    Spec.running_calories
      (Training.meanSpeed (Running.Training r))
      (Training.Weight (Running.Training r))
      (time.Hours (Training.Duration (Running.Training r))) /\
  (Training.Action (Running.Training r) = 5000 ->
   Training.LenStep (Running.Training r) = 0.65%float ->
   Training.Duration (Running.Training r) = 30 * time.Minute ->
   Training.Weight (Running.Training r) = 85%float ->
   time.Hours (Training.Duration (Running.Training r)) = 0.5%float /\
   Training.distance (Running.Training r) = 3.25%float /\
   Training.meanSpeed (Running.Training r) = 6.5%float /\
   Running.Calories r = ((18 * 6.5 + 1.79) * 85 / 1000 * 0.5 * 60)%float).
Proof.
  split.
  - unfold Running.Calories, Running.meanSpeed, Spec.running_calories.
    cbv zeta.
    rewrite const_MInKm, const_MinInHours, const_CaloriesMeanSpeedMultiplier.
    reflexivity.
  - destruct r as [[kind action len duration weight]]. simpl.
    intros -> -> -> ->. repeat split; vm_compute; reflexivity.
Qed.

Lemma Running_Calories_formula_witness :
  time.Hours (Training.Duration (Running.Training running)) = 0.5%float /\
  Training.distance (Running.Training running) = 3.25%float /\
  Training.meanSpeed (Running.Training running) = 6.5%float /\
  Running.Calories running = ((18 * 6.5 + 1.79) * 85 / 1000 * 0.5 * 60)%float.
Proof.
  apply (proj2 (Running_Calories_formula running)); reflexivity.
Defined.

(** C5. The calories of a Walking session are
    [(0.035 * weightKg + (speedMs^2 / heightM) * 0.029 * weightKg)
     * durationHours * 60], where [speedMs] is the base mean speed times
    [0.278] and [heightM] is the height in centimetres over [100]; the square
    is [math.Pow(speedMs, 2)]. *)
Theorem Walking_Calories_formula `{GoLib} (w : Walking.t) :
  Walking.Calories w =
    Spec.walking_calories
      (Training.meanSpeed (Walking.Training w))
      (Training.Weight (Walking.Training w))
      (Walking.Height w)
      (time.Hours (Training.Duration (Walking.Training w))) /\
  (let speedMs := (Training.meanSpeed (Walking.Training w) * 0.278)%float in
   let heightM := (Walking.Height w / 100)%float in
   let weightKg := Training.Weight (Walking.Training w) in
   let durationHours := time.Hours (Training.Duration (Walking.Training w)) in
   Walking.Calories w =
     ((0.035 * weightKg + (math_Pow speedMs 2 / heightM) * 0.029 * weightKg)
      * durationHours * 60)%float).
Proof.
  unfold Walking.Calories, Walking.meanSpeed, Spec.walking_calories.
  cbv zeta. rewrite const_MinInHours, const_CmInM. split; reflexivity.
Qed.

(** The claim that the first session of [main] burns about 326.25 kcal fails:
    there the program computes 323.00000000000006, more than 3 kcal away. *)
Lemma Swimming_Calories_scenario_not_326_25 :
  Swimming.LengthPool swimming = 50 /\
  Swimming.CountPool swimming = 5 /\
  time.Hours (Training.Duration (Swimming.Training swimming)) = 1.5%float /\
  Training.Weight (Swimming.Training swimming) = 85%float /\
  Swimming.Calories swimming = 323.00000000000006%float /\
  Spec.approx 0.005 (Swimming.Calories swimming) 326.25 = false /\
  Spec.approx 3 (Swimming.Calories swimming) 326.25 = false.
Proof. repeat split. Qed.

(** C6 (amended). The calories of a Swimming session are
    [(meanSpeed() + 1.1) * 2 * weightKg * durationHours] with the swimming
    mean speed; with a 50 m pool crossed 5 times in 1.5 h at 85 kg that is
    323.00 kcal to two decimals. *)
Theorem Swimming_Calories_formula (s : Swimming.t) :
  Swimming.Calories s =
    Spec.swimming_calories
      (Swimming.meanSpeed s)
      (Training.Weight (Swimming.Training s))
      (time.Hours (Training.Duration (Swimming.Training s))) /\
  (Swimming.LengthPool s = 50 ->
   Swimming.CountPool s = 5 ->
   Training.Duration (Swimming.Training s) = 90 * time.Minute ->
   Training.Weight (Swimming.Training s) = 85%float ->
   Swimming.meanSpeed s = (Int64.to_float64 (50 * 5) / 1000 / 1.5)%float /\
   Spec.approx 0.005 (Swimming.Calories s) 323 = true).
Proof.
  split.
  - unfold Swimming.Calories, Spec.swimming_calories. cbv zeta.
    rewrite const_SwimmingCaloriesWeightMultiplier. reflexivity.
  - destruct s as [[kind action len duration weight] lengthPool countPool].
    simpl. intros -> -> -> ->. split; vm_compute; reflexivity.
Qed.

Lemma Swimming_Calories_formula_witness :
  Swimming.meanSpeed swimming = (Int64.to_float64 (50 * 5) / 1000 / 1.5)%float /\
  Spec.approx 0.005 (Swimming.Calories swimming) 323 = true.
Proof.
  apply (proj2 (Swimming_Calories_formula swimming)); reflexivity.
Defined.

(** ** The calories field before [ReadData] overwrites it *)

(** C10. The report returned by [TrainingInfo] carries [0] calories for
    Running, Walking and Swimming alike, whatever the variant's own
    [Calories] returns: it is filled by the base [Training.Calories].  The
    variant's value reaches the output because [ReadData] stores it in the
    field afterwards. *)
Theorem TrainingInfo_Calories_zero `{GoLib} :
  (forall r : Running.t,
      InfoMessage.Calories (Running.TrainingInfo r) = 0%float) /\
  (forall w : Walking.t,
      InfoMessage.Calories (Walking.TrainingInfo w) = 0%float) /\
  (forall s : Swimming.t,
      InfoMessage.Calories (Swimming.TrainingInfo s) = 0%float) /\
  (forall t : Training.t,
      InfoMessage.Calories (Training.TrainingInfo t) = Training.Calories t /\
      Training.Calories t = 0%float) /\
  (forall (T : Type) (C : CaloriesCalculator T) (v : T),
      ReadData_info v = InfoMessage.set_Calories (TrainingInfo v) (Calories v)) /\
  (Running.Calories running <> 0%float /\
   InfoMessage.Calories (Running.TrainingInfo running) = 0%float /\
   InfoMessage.Calories (ReadData_info running) = Running.Calories running) /\
  (Swimming.Calories swimming <> 0%float /\
   InfoMessage.Calories (Swimming.TrainingInfo swimming) = 0%float /\
   InfoMessage.Calories (ReadData_info swimming) = Swimming.Calories swimming).
Proof.
  repeat split; apply float_neq; reflexivity.
Qed.

(** ** Rounding to binary64, away from overflow and underflow

    The rest of the development shows that doubling the number of actions
    doubles the distance.  It follows the algorithms of [SpecFloat]: away
    from the subnormal range, the mantissa that rounding produces depends on
    the input mantissa only, and the exponent of the input is carried to the
    result. *)

Lemma digits_log2 p : digits p = Z.log2 (Zpos p) + 1.
Proof.
  unfold digits. destruct p as [p|p|]; simpl; try reflexivity.
  - induction p; simpl; try lia. 
  - induction p; simpl; try lia.
Qed.

Lemma digits_pos p : 1 <= digits p.
Proof. unfold digits. lia. Qed.

Lemma digits_bounds p : 2 ^ (digits p - 1) <= Zpos p < 2 ^ digits p.
Proof.
  rewrite digits_log2.
  replace (Z.log2 (Zpos p) + 1 - 1) with (Z.log2 (Zpos p)) by lia.
  apply Z.log2_spec. lia.
Qed.

Lemma digits_unique p n : 2 ^ (n - 1) <= Zpos p < 2 ^ n -> digits p = n.
Proof.
  intros H. rewrite digits_log2.
  assert (0 <= n - 1).
  { destruct (Z_lt_le_dec (n - 1) 0) as [L|L]; [|exact L].
    exfalso. destruct (Z_lt_le_dec n 0) as [L'|L'].
    - rewrite (Z.pow_neg_r 2 n) in H by lia. lia.
    - assert (n = 0) by lia. subst n. simpl in H. lia. }
  rewrite (Z.log2_unique (Zpos p) (n - 1)); try lia.
  replace (Z.succ (n - 1)) with n by lia. exact H.
Qed.

Lemma digits_xO p : digits (xO p) = digits p + 1.
Proof. unfold digits. simpl. lia. Qed.

Lemma digits_xI p : digits (xI p) = digits p + 1.
Proof. unfold digits. simpl. lia. Qed.

Lemma digits_succ p : digits (Pos.succ p) = digits p \/ digits (Pos.succ p) = digits p + 1.
Proof.
  induction p as [p IH|p IH|]; simpl Pos.succ.
  - rewrite digits_xO, digits_xI. lia.
  - rewrite digits_xO, digits_xI. lia.
  - right. reflexivity.
Qed.

Lemma digits_mul p q : digits p + digits q - 1 <= digits (p * q) <= digits p + digits q.
Proof.
  pose proof (digits_bounds p) as Hp. pose proof (digits_bounds q) as Hq.
  pose proof (digits_bounds (p * q)) as Hpq.
  pose proof (digits_pos p). pose proof (digits_pos q). pose proof (digits_pos (p * q)).
  rewrite Pos2Z.inj_mul in Hpq.
  assert (L : 2 ^ (digits p - 1 + (digits q - 1)) <= Zpos p * Zpos q).
  { rewrite Z.pow_add_r by lia. apply Z.mul_le_mono_nonneg; lia. }
  assert (U : Zpos p * Zpos q < 2 ^ (digits p + digits q)).
  { rewrite Z.pow_add_r by lia. apply Z.mul_lt_mono_nonneg; lia. }
  split.
  - assert (digits p - 1 + (digits q - 1) < digits (p * q)); [|lia].
    apply (Z.pow_lt_mono_r_iff 2); lia.
  - assert (digits (p * q) - 1 < digits p + digits q); [|lia].
    apply (Z.pow_lt_mono_r_iff 2); lia.
Qed.

(** *** Shifting a mantissa right *)
Lemma shr_1_digits r s p :
  1 < digits p ->
  exists q, shr_m (shr_1 (Build_shr_record (Zpos p) r s)) = Zpos q
            /\ digits q = digits p - 1.
Proof.
  intros H. destruct p as [p|p|].
  - exists p. rewrite digits_xI. split; [reflexivity|lia].
  - exists p. rewrite digits_xO. split; [reflexivity|lia].
  - unfold digits in H. simpl in H. lia.
Qed.

Lemma iter_shr_1_digits n : forall mrs p,
  shr_m mrs = Zpos p -> Zpos n < digits p ->
  exists q, shr_m (iter_pos shr_1 n mrs) = Zpos q /\ digits q = digits p - Zpos n.
Proof.
  assert (step : forall mrs p, shr_m mrs = Zpos p -> 1 < digits p ->
            exists q, shr_m (shr_1 mrs) = Zpos q /\ digits q = digits p - 1).
  { intros [m r s] p Hm Hp. simpl in Hm. subst m.
    apply (shr_1_digits r s p Hp). }
  induction n as [n IH|n IH|]; intros mrs p Hm Hp; simpl iter_pos.
  - destruct (step mrs p Hm) as (q1 & Hq1 & Dq1); [lia|].
    destruct (IH _ _ Hq1) as (q2 & Hq2 & Dq2); [lia|].
    destruct (IH _ _ Hq2) as (q3 & Hq3 & Dq3); [lia|].
    exists q3. split; [exact Hq3|lia].
  - destruct (IH _ _ Hm) as (q2 & Hq2 & Dq2); [lia|].
    destruct (IH _ _ Hq2) as (q3 & Hq3 & Dq3); [lia|].
    exists q3. split; [exact Hq3|lia].
  - destruct (step mrs p Hm) as (q1 & Hq1 & Dq1); [lia|].
    exists q1. split; [exact Hq1|lia].
Qed.

Lemma shr_split mrs e n : shr mrs e n = (shr_by mrs n, e + Z.max 0 n).
Proof.
  unfold shr_by, shr. destruct n; simpl; f_equal; lia.
Qed.

Lemma shr_m_of_loc m l : shr_m (shr_record_of_loc m l) = m.
Proof. destruct l as [|[]]; reflexivity. Qed.

Lemma shr_by_digits mrs p n :
  shr_m mrs = Zpos p -> 0 <= n < digits p ->
  exists q, shr_m (shr_by mrs n) = Zpos q /\ digits q = digits p - n.
Proof.
  intros Hm Hn. unfold shr_by, shr. destruct n as [|n|n]; simpl.
  - exists p. split; [exact Hm|lia].
  - apply iter_shr_1_digits; [exact Hm|lia].
  - lia.
Qed.

Lemma round_nearest_even_digits q l :
  exists q', round_nearest_even (Zpos q) l = Zpos q'
             /\ (digits q' = digits q \/ digits q' = digits q + 1).
Proof.
  assert (S : exists q', Zpos q + 1 = Zpos q'
                         /\ (digits q' = digits q \/ digits q' = digits q + 1)).
  { exists (Pos.succ q). split; [lia|apply digits_succ]. }
  assert (I : exists q', Zpos q = Zpos q'
                         /\ (digits q' = digits q \/ digits q' = digits q + 1)).
  { exists q. split; [reflexivity|left; reflexivity]. }
  destruct l as [|[]]; unfold round_nearest_even;
    try exact I; try exact S.
  destruct (Z.even (Zpos q)); [exact I|exact S].
Qed.

Lemma fexp_linear e : -1074 <= e - 53 -> fexp prec emax e = e - 53.
Proof. unfold fexp, emin, prec, emax. lia. Qed.

(** The rounding of a mantissa of at least 53 digits, away from the
    subnormal range: the result mantissa and the exponent increment depend on
    the mantissa and the location only. *)
Lemma binary_round_aux_normal p l :
  53 <= digits p ->
  exists m k,
    digits m = 53 /\ digits p - 53 <= k <= digits p - 52 /\
    forall s e, -1074 <= digits p + e - 53 ->
      binary_round_aux prec emax s (Zpos p) e l =
        if e + k <=? 971 then S754_finite s m (e + k) else S754_infinity s.
Proof.
  intros Hp.
  destruct (shr_by_digits (shr_record_of_loc (Zpos p) l) p (digits p - 53))
    as (q & Hq & Dq); [apply shr_m_of_loc|pose proof (digits_pos p); lia|].
  destruct (round_nearest_even_digits q
              (loc_of_shr_record
                 (shr_by (shr_record_of_loc (Zpos p) l) (digits p - 53))))
    as (q' & Hq' & Dq').
  destruct (shr_by_digits (shr_record_of_loc (Zpos q') loc_Exact) q'
                          (digits q' - 53))
    as (m & Hm & Dm); [apply shr_m_of_loc|pose proof (digits_pos q'); lia|].
  exists m, (digits p - 53 + (digits q' - 53)).
  split; [lia|]. split; [lia|].
  intros s e He.
  unfold binary_round_aux, shr_fexp.
  change (Zdigits2 (Zpos p)) with (digits p).
  rewrite fexp_linear by lia.
  replace (digits p + e - 53 - e) with (digits p - 53) by lia.
  rewrite shr_split. rewrite Hq, Hq'.
  change (Zdigits2 (Zpos q')) with (digits q').
  rewrite fexp_linear by lia.
  replace (digits q' + (e + Z.max 0 (digits p - 53)) - 53 - (e + Z.max 0 (digits p - 53)))
    with (digits q' - 53) by lia.
  rewrite shr_split. rewrite Hm.
  replace (e + Z.max 0 (digits p - 53) + Z.max 0 (digits q' - 53))
    with (e + (digits p - 53 + (digits q' - 53))) by lia.
  reflexivity.
Qed.

Lemma shr_fexp_linear p e l :
  -1074 <= digits p + e - 53 ->
  shr_fexp prec emax (Zpos p) e l =
    (shr_by (shr_record_of_loc (Zpos p) l) (digits p - 53),
     e + Z.max 0 (digits p - 53)).
Proof.
  intros H. unfold shr_fexp. change (Zdigits2 (Zpos p)) with (digits p).
  rewrite fexp_linear by lia.
  replace (digits p + e - 53 - e) with (digits p - 53) by lia.
  apply shr_split.
Qed.

Lemma binary_round_aux_exact s m e :
  digits m = 53 -> -1074 <= e ->
  binary_round_aux prec emax s (Zpos m) e loc_Exact =
    if e <=? 971 then S754_finite s m e else S754_infinity s.
Proof.
  intros Hm He.
  assert (F : shr_fexp prec emax (Zpos m) e loc_Exact =
              (shr_record_of_loc (Zpos m) loc_Exact, e)).
  { rewrite shr_fexp_linear by lia. rewrite Hm. simpl. f_equal. lia. }
  unfold binary_round_aux. rewrite F. simpl round_nearest_even.
  rewrite F. reflexivity.
Qed.

Lemma iter_pos_comm {A : Type} (f : A -> A) n :
  forall x, iter_pos f n (f x) = f (iter_pos f n x).
Proof.
  induction n as [n IH|n IH|]; intros x; simpl.
  - rewrite !IH. reflexivity.
  - rewrite !IH. reflexivity.
  - reflexivity.
Qed.

Lemma iter_pos_succ {A : Type} (f : A -> A) n :
  forall x, iter_pos f (Pos.succ n) x = iter_pos f n (f x).
Proof.
  induction n as [n IH|n IH|]; intros x; simpl.
  - rewrite !IH, !iter_pos_comm. reflexivity.
  - reflexivity.
  - reflexivity.
Qed.

(** A trailing zero bit of an exact mantissa is an exponent increment. *)
Lemma binary_round_aux_xO s p e :
  53 <= digits p -> -1074 <= digits p + e - 52 ->
  binary_round_aux prec emax s (Zpos (xO p)) e loc_Exact =
  binary_round_aux prec emax s (Zpos p) (e + 1) loc_Exact.
Proof.
  intros Hp He.
  unfold binary_round_aux, shr_fexp.
  change (Zdigits2 (Zpos (xO p))) with (digits (xO p)).
  change (Zdigits2 (Zpos p)) with (digits p).
  rewrite digits_xO, !fexp_linear by lia.
  replace (digits p + 1 + e - 53 - e) with (Z.succ (digits p - 53)) by lia.
  replace (digits p + (e + 1) - 53 - (e + 1)) with (digits p - 53) by lia.
  assert (E : shr (shr_record_of_loc (Zpos (xO p)) loc_Exact) e
                  (Z.succ (digits p - 53)) =
              shr (shr_record_of_loc (Zpos p) loc_Exact) (e + 1) (digits p - 53)).
  { destruct (digits p - 53) as [|n|n] eqn:En; try lia.
    - simpl. reflexivity.
    - replace (Z.succ (Zpos n)) with (Zpos (Pos.succ n)) by lia.
      unfold shr. rewrite iter_pos_succ. simpl shr_1. f_equal. lia. }
  rewrite E. reflexivity.
Qed.

Lemma digits_iter_xO p n : digits (Pos.iter xO p n) = digits p + Zpos n.
Proof.
  induction n as [|n IH] using Pos.peano_ind.
  - simpl. apply digits_xO.
  - rewrite Pos.iter_succ, digits_xO, IH. lia.
Qed.

Lemma binary_round_aux_shl s p n : forall e,
  53 <= digits p -> -1074 <= digits p + e + Zpos n - 53 ->
  binary_round_aux prec emax s (Zpos (Pos.iter xO p n)) e loc_Exact =
  binary_round_aux prec emax s (Zpos p) (e + Zpos n) loc_Exact.
Proof.
  induction n as [|n IH] using Pos.peano_ind; intros e Hp He.
  - simpl Pos.iter. apply binary_round_aux_xO; lia.
  - rewrite Pos.iter_succ, binary_round_aux_xO.
    + rewrite IH by lia. f_equal. lia.
    + rewrite digits_iter_xO. lia.
    + rewrite digits_iter_xO. lia.
Qed.

(** The product of two normal numbers, away from the subnormal range. *)
Lemma SFmul_normal mx my :
  digits mx = 53 -> digits my = 53 ->
  exists m k,
    digits m = 53 /\ 52 <= k <= 54 /\
    forall sx sy ex ey, -1126 <= ex + ey ->
      SFmul prec emax (S754_finite sx mx ex) (S754_finite sy my ey) =
        if ex + ey + k <=? 971 then S754_finite (xorb sx sy) m (ex + ey + k)
        else S754_infinity (xorb sx sy).
Proof.
  intros Hx Hy. pose proof (digits_mul mx my) as D.
  destruct (binary_round_aux_normal (mx * my) loc_Exact)
    as (m & k & Hm & Hk & R); [lia|].
  exists m, k. split; [exact Hm|]. split; [lia|].
  intros sx sy ex ey He. simpl SFmul. apply R. lia.
Qed.

Lemma div_eucl_div a b : Z.div_eucl a b = (a / b, a mod b).
Proof. unfold Z.div, Z.modulo. destruct (Z.div_eucl a b). reflexivity. Qed.

(** The quotient of two normal numbers, away from the subnormal range. *)
Lemma SFdiv_normal mx my :
  digits mx = 53 -> digits my = 53 ->
  exists m k,
    digits m = 53 /\ -53 <= k <= -51 /\
    forall sx sy ex ey, -1021 <= ex - ey ->
      SFdiv prec emax (S754_finite sx mx ex) (S754_finite sy my ey) =
        if ex - ey + k <=? 971 then S754_finite (xorb sx sy) m (ex - ey + k)
        else S754_infinity (xorb sx sy).
Proof.
  intros Hx Hy.
  pose proof (digits_bounds mx) as Bx. pose proof (digits_bounds my) as By.
  rewrite Hx in Bx. rewrite Hy in By.
  change (2 ^ (53 - 1)) with (2 ^ 52) in *.
  set (a := Zpos mx * 2 ^ 53).
  assert (Lq : 2 ^ 52 <= a / Zpos my).
  { apply Z.div_le_lower_bound; [lia|]. unfold a.
    replace (2 ^ 53) with (2 * 2 ^ 52) in * by reflexivity. nia. }
  assert (Uq : a / Zpos my < 2 ^ 54).
  { apply Z.div_lt_upper_bound; [lia|]. unfold a.
    replace (2 ^ 54) with (2 ^ 53 * 2) by reflexivity.
    replace (2 ^ 53) with (2 * 2 ^ 52) in * by reflexivity. nia. }
  destruct (a / Zpos my) as [|q|q] eqn:Eq; try lia.
  assert (Dq : digits q = 53 \/ digits q = 54).
  { destruct (Z_lt_le_dec (Zpos q) (2 ^ 53)) as [L|L].
    - left. apply digits_unique. change (2 ^ (53 - 1)) with (2 ^ 52). lia.
    - right. apply digits_unique. change (2 ^ (54 - 1)) with (2 ^ 53). lia. }
  destruct (binary_round_aux_normal q (new_location (Zpos my) (a mod Zpos my)))
    as (m & k & Hm & Hk & R); [lia|].
  exists m, (k - 53). split; [exact Hm|]. split; [lia|].
  intros sx sy ex ey He.
  unfold SFdiv, SFdiv_core_binary.
  change (Zdigits2 (Zpos mx)) with (digits mx).
  change (Zdigits2 (Zpos my)) with (digits my).
  rewrite Hx, Hy, fexp_linear by lia.
  replace (Z.min (53 + ex - (53 + ey) - 53) (ex - ey)) with (ex - ey - 53)
    by lia.
  replace (ex - ey - (ex - ey - 53)) with 53 by lia.
  rewrite Z.shiftl_mul_pow2 by lia. fold a.
  rewrite div_eucl_div, Eq.
  rewrite R by lia.
  replace (ex - ey - 53 + k) with (ex - ey + (k - 53)) by lia.
  reflexivity.
Qed.

(** Doubling a normal number is an exponent increment. *)
Lemma SFmul_two s m e :
  digits m = 53 -> -1074 <= e ->
  SFmul prec emax SFtwo (S754_finite s m e) =
    if e + 1 <=? 971 then S754_finite s m (e + 1) else S754_infinity s.
Proof.
  intros Hm He. unfold SFtwo, SFmul.
  change (xorb false s) with s.
  change (Pos.mul 4503599627370496 m) with (Pos.iter xO m 52).
  rewrite binary_round_aux_shl by lia.
  rewrite binary_round_aux_exact by lia.
  replace (-51 + e + 52) with (e + 1) by lia. reflexivity.
Qed.

Lemma shl_align_spec p e e' :
  shl_align p e e' =
    if e' <? e then (Pos.iter xO p (Z.to_pos (e - e')), e') else (p, e).
Proof.
  unfold shl_align.
  destruct (Z.ltb_spec e' e) as [L|L]; destruct (e' - e) as [|d|d] eqn:E;
    try lia; try reflexivity.
  replace (e - e') with (Zpos d) by lia. reflexivity.
Qed.

(** The conversion of a nonzero integer of at most 64 bits: a normal number,
    and doubling the integer increments its exponent. *)
Lemma binary_round_int s p :
  digits p <= 64 ->
  exists m e,
    digits m = 53 /\ -52 <= e <= 12 /\
    binary_round prec emax s p 0 = S754_finite s m e /\
    (digits p <= 63 ->
     binary_round prec emax s (xO p) 0 = S754_finite s m (e + 1)).
Proof.
  intros Hp. pose proof (digits_pos p) as Pp.
  unfold binary_round.
  change (Zpos (digits2_pos (xO p))) with (digits (xO p)).
  change (Zpos (digits2_pos p)) with (digits p).
  rewrite digits_xO, !fexp_linear, !shl_align_spec by lia.
  destruct (Z_lt_le_dec (digits p) 53) as [Small|Large].
  - (* the mantissa is padded to 53 bits, nothing is rounded *)
    assert (Dm : digits (Pos.iter xO p (Z.to_pos (0 - (digits p + 0 - 53)))) = 53).
    { rewrite digits_iter_xO. lia. }
    exists (Pos.iter xO p (Z.to_pos (0 - (digits p + 0 - 53)))), (digits p - 53).
    split; [exact Dm|]. split; [lia|]. split.
    + destruct (Z.ltb_spec (digits p + 0 - 53) 0) as [L|L]; [|lia].
      rewrite binary_round_aux_exact by lia.
      destruct (Z.leb_spec (digits p + 0 - 53) 971) as [L'|L']; [|lia].
      f_equal; lia.
    + intros _.
      destruct (Z.ltb_spec (digits p + 1 + 0 - 53) 0) as [L|L].
      * replace (Z.to_pos (0 - (digits p + 0 - 53)))
          with (Pos.succ (Z.to_pos (0 - (digits p + 1 + 0 - 53)))) in * by lia.
        rewrite Pos.iter_succ_r in *.
        rewrite binary_round_aux_exact by lia.
        destruct (Z.leb_spec (digits p + 1 + 0 - 53) 971) as [L'|L']; [|lia].
        f_equal; lia.
      * replace (Z.to_pos (0 - (digits p + 0 - 53))) with 1%positive in * by lia.
        simpl Pos.iter in *.
        rewrite binary_round_aux_exact by (try exact Dm; lia).
        change (0 <=? 971) with true. cbv iota. f_equal; lia.
  - (* the mantissa is rounded to 53 bits *)
    destruct (binary_round_aux_normal p loc_Exact)
      as (m & k & Hm & Hk & R); [lia|].
    exists m, k. split; [exact Hm|]. split; [lia|]. split.
    + destruct (Z.ltb_spec (digits p + 0 - 53) 0) as [L|L]; [lia|].
      rewrite R by lia.
      destruct (Z.leb_spec (0 + k) 971) as [L'|L']; [|lia].
      reflexivity.
    + intros Hp'.
      destruct (Z.ltb_spec (digits p + 1 + 0 - 53) 0) as [L|L]; [lia|].
      rewrite binary_round_aux_xO by lia.
      rewrite R by lia.
      destruct (Z.leb_spec (0 + 1 + k) 971) as [L'|L']; [|lia].
      f_equal; lia.
Qed.

Lemma digits_le_64 p : Zpos p <= 2 ^ 63 -> digits p <= 64.
Proof.
  intros H. pose proof (digits_bounds p) as B. pose proof (digits_pos p).
  assert (digits p - 1 < 64); [|lia].
  apply (Z.pow_lt_mono_r_iff 2); [lia|lia|].
  change (2 ^ 64) with (2 * 2 ^ 63). lia.
Qed.

Lemma digits_le_63 p : Zpos p <= 2 ^ 62 -> digits p <= 63.
Proof.
  intros H. pose proof (digits_bounds p) as B. pose proof (digits_pos p).
  assert (digits p - 1 < 63); [|lia].
  apply (Z.pow_lt_mono_r_iff 2); [lia|lia|].
  change (2 ^ 63) with (2 * 2 ^ 62). lia.
Qed.

(** [float64(a)] for a nonzero [a] that can be doubled. *)
Lemma binary_normalize_double a :
  a <> 0 -> - 2 ^ 62 <= a <= 2 ^ 62 ->
  exists m e,
    digits m = 53 /\ -52 <= e <= 12 /\
    binary_normalize prec emax a 0 false = S754_finite (a <? 0) m e /\
    binary_normalize prec emax (2 * a) 0 false = S754_finite (a <? 0) m (e + 1).
Proof.
  intros Ha Hr. destruct a as [|p|p]; [lia| |].
  - destruct (binary_round_int false p) as (m & e & Hm & He & R1 & R2).
    { apply digits_le_64. lia. }
    exists m, e. repeat split; try lia; try exact R1.
    apply R2. apply digits_le_63. lia.
  - destruct (binary_round_int true p) as (m & e & Hm & He & R1 & R2).
    { apply digits_le_64. lia. }
    exists m, e. repeat split; try lia; try exact R1.
    apply R2. apply digits_le_63. lia.
Qed.

Lemma valid_normal s m e :
  digits m = 53 -> -1074 <= e <= 971 -> valid_binary (S754_finite s m e) = true.
Proof.
  intros Hm He. unfold SpecFloat.valid_binary, bounded, canonical_mantissa.
  change (Zpos (digits2_pos m)) with (digits m).
  rewrite Hm, fexp_linear by lia.
  apply andb_true_intro. split.
  - apply Z.eqb_eq. lia.
  - apply Z.leb_le. unfold emax, prec. lia.
Qed.

(** A valid number whose exponent is above the least one is normal. *)
Lemma valid_exponent_normal s m e :
  valid_binary (S754_finite s m e) = true -> -1074 < e -> digits m = 53.
Proof.
  unfold SpecFloat.valid_binary, bounded, canonical_mantissa.
  change (Zpos (digits2_pos m)) with (digits m).
  intros H He. apply andb_prop in H. destruct H as [H _].
  apply Z.eqb_eq in H. unfold fexp, emin, prec, emax in H. lia.
Qed.

Lemma SFleb_finite_exponent m1 e1 s2 m2 e2 :
  SFleb (S754_finite false m1 e1) (SFabs (S754_finite s2 m2 e2)) = true ->
  e1 <= e2.
Proof.
  unfold SFleb, SFabs, SFcompare.
  destruct (Z.compare_spec e1 e2); intros; try lia; discriminate.
Qed.

Lemma SFltb_finite_exponent s1 m1 e1 m2 e2 :
  SFltb (SFabs (S754_finite s1 m1 e1)) (S754_finite false m2 e2) = true ->
  e1 < e2 \/ (e1 = e2 /\ Zpos m1 < Zpos m2).
Proof.
  unfold SFltb, SFabs, SFcompare.
  destruct (Z.compare_spec e1 e2) as [E|E|E]; intros H;
    try discriminate; [right|left; exact E].
  split; [exact E|].
  rewrite Pos.compare_cont_spec in H. unfold Pos.switch_Eq in H.
  destruct (Pos.compare_spec m1 m2); try discriminate; lia.
Qed.

Lemma moderate_normal x :
  moderate x = true ->
  exists s m e,
    Prim2SF x = S754_finite s m e /\ digits m = 53 /\ -1000 <= e <= 900.
Proof.
  unfold moderate. intros H. apply andb_prop in H. destruct H as [Lo Hi].
  rewrite leb_spec, abs_spec in Lo. rewrite ltb_spec, abs_spec in Hi.
  pose proof (Prim2SF_valid x) as V.
  assert (E1 : Prim2SF 0x1p-948 = S754_finite false 4503599627370496 (-1000))
    by (vm_compute; reflexivity).
  assert (E2 : Prim2SF 0x1p953 = S754_finite false 4503599627370496 901)
    by (vm_compute; reflexivity).
  rewrite E1 in Lo. rewrite E2 in Hi. clear E1 E2.
  destruct (Prim2SF x) as [s|s| |s m e].
  - destruct s; discriminate Lo.
  - destruct s; discriminate Hi.
  - discriminate Lo.
  - exists s, m, e.
    apply SFleb_finite_exponent in Lo. apply SFltb_finite_exponent in Hi.
    assert (N : digits m = 53) by (apply (valid_exponent_normal s m e V); lia).
    repeat split; try assumption.
    destruct Hi as [Hi|[Hi Hm]]; [lia|].
    pose proof (digits_bounds m) as B. rewrite N in B.
    assert (P : 2 ^ (53 - 1) = 4503599627370496) by (vm_compute; reflexivity).
    rewrite P in B. lia.
Qed.

Lemma Prim2SF_to_float64 a :
  - 2 ^ 63 <= a <= 2 ^ 63 ->
  Prim2SF (Int64.to_float64 a) = binary_normalize prec emax a 0 false.
Proof.
  intros Ha. unfold Int64.to_float64. apply Prim2SF_SF2Prim.
  destruct a as [|p|p]; [reflexivity| |]; simpl binary_normalize.
  - destruct (binary_round_int false p) as (m & e & Hm & He & R & _);
      [apply digits_le_64; lia|].
    rewrite R. apply valid_normal; [exact Hm|lia].
  - destruct (binary_round_int true p) as (m & e & Hm & He & R & _);
      [apply digits_le_64; lia|].
    rewrite R. apply valid_normal; [exact Hm|lia].
Qed.

Lemma Prim2SF_two : Prim2SF 2 = SFtwo.
Proof. vm_compute. reflexivity. Qed.

Ltac leb_true :=
  match goal with
  | |- context [?a <=? 971] =>
      destruct (Z.leb_spec a 971); [|exfalso; lia]
  end.

(** The three roundings of [distance], for a nonzero number of actions. *)
Lemma SF_double_Action a sL mL eL :
  a <> 0 -> - 2 ^ 62 <= a <= 2 ^ 62 ->
  digits mL = 53 -> -1000 <= eL <= 900 ->
  SFdiv prec emax
    (SFmul prec emax (binary_normalize prec emax (2 * a) 0 false)
           (S754_finite sL mL eL))
    (S754_finite false 8796093022208000 (-43)) =
  SFmul prec emax SFtwo
    (SFdiv prec emax
       (SFmul prec emax (binary_normalize prec emax a 0 false)
              (S754_finite sL mL eL))
       (S754_finite false 8796093022208000 (-43))).
Proof.
  intros Ha Hr HL He.
  destruct (binary_normalize_double a Ha Hr) as (m & e & Hm & Hme & R1 & R2).
  rewrite R1, R2.
  destruct (SFmul_normal m mL Hm HL) as (mp & kp & Hmp & Hkp & RP).
  rewrite !RP by lia. repeat leb_true.
  assert (Hc : digits 8796093022208000 = 53) by reflexivity.
  destruct (SFdiv_normal mp 8796093022208000 Hmp Hc)
    as (mq & kq & Hmq & Hkq & RQ).
  rewrite !RQ by lia. repeat leb_true.
  rewrite SFmul_two by (try exact Hmq; lia). leb_true.
  f_equal. lia.
Qed.

(** No action at all: both distances are the same zero. *)
Lemma SF_double_Action_zero s m e :
  SFdiv prec emax
    (SFmul prec emax (binary_normalize prec emax (2 * 0) 0 false)
           (S754_finite s m e))
    (S754_finite false 8796093022208000 (-43)) =
  SFmul prec emax SFtwo
    (SFdiv prec emax
       (SFmul prec emax (binary_normalize prec emax 0 0 false)
              (S754_finite s m e))
       (S754_finite false 8796093022208000 (-43))).
Proof. reflexivity. Qed.

Lemma Training_double_Action (t : Training.t) :
  Int64.in_range (2 * Training.Action t) ->
  moderate (Training.LenStep t) = true ->
  Training.distance (with_Action t (2 * Training.Action t)) =
    (2 * Training.distance t)%float.
Proof.
  unfold Int64.in_range, Int64.min_int, Int64.max_int.
  intros Ha HL.
  destruct (moderate_normal _ HL) as (s & m & e & P & Hm & He).
  assert (P63 : 2 ^ 63 = 2 * 2 ^ 62) by reflexivity.
  apply Prim2SF_inj. unfold Training.distance, with_Action, const, MInKm.
  cbn [Training.Action Training.LenStep].
  rewrite mul_spec, !div_spec, !mul_spec, !Prim2SF_to_float64 by lia.
  rewrite Prim2SF_two, P.
  change (binary_normalize prec emax 1000 0 false)
    with (S754_finite false 8796093022208000 (-43)).
  unfold SF64div, SF64mul.
  destruct (Z.eq_dec (Training.Action t) 0) as [Zero|Nz].
  - rewrite Zero. apply SF_double_Action_zero.
  - apply SF_double_Action; try assumption. lia.
Qed.

(** ** Distance and the number of actions *)

(** The claim that doubling the number of actions always doubles the
    distance fails when the product overflows: with one step as long as the
    largest finite [float64] the distance is finite, with two steps it is
    infinite. *)
Lemma distance_double_overflow :
  Int64.in_range (2 * Training.Action (Running.Training running_huge_step)) /\
  Running.distance running_huge_step = 1.7976931348623156e+305%float /\
  Running.distance (Running_with_Action running_huge_step 2) = infinity /\
  Running.distance (Running_with_Action running_huge_step 2) <>
    (2 * Running.distance running_huge_step)%float.
Proof.
  split; [vm_compute; split; discriminate|].
  split; [vm_compute; reflexivity|].
  split; [vm_compute; reflexivity|].
  apply float_neq; vm_compute; reflexivity.
Qed.

(** Nor is the distance doubled when the quotient underflows: with a step of
    1500 times the least positive [float64], one step gives 2 units of the
    last place and two steps give 3. *)
Lemma tiny_step_not_doubled :
  Prim2SF (Walking.distance walking_tiny_step) =
    S754_finite false 2 (-1074) /\
  Prim2SF (Walking.distance (Walking_with_Action walking_tiny_step 2)) =
    S754_finite false 3 (-1074) /\
  Walking.distance (Walking_with_Action walking_tiny_step 2) <>
    (2 * Walking.distance walking_tiny_step)%float.
Proof.
  split; [vm_compute; reflexivity|].
  split; [vm_compute; reflexivity|].
  apply float_neq; vm_compute; reflexivity.
Qed.

(** Twice [2^62] does not fit Go's [int]: the product wraps to [-2^63]. *)
Lemma Action_double_wraps :
  Int64.in_range (2 ^ 62) /\ Int64.mul 2 (2 ^ 62) = - 2 ^ 63.
Proof. split; [vm_compute; split; discriminate|reflexivity]. Qed.

(** C9 (amended). For a Running or a Walking session, when twice the number
    of actions still fits Go's [int] and the step length is a [float64] of
    ordinary magnitude ([2^-948 <= |stepLength| < 2^953], as 0.65 is), the
    session with twice the actions and every other field unchanged has
    exactly twice the distance. *)
Theorem distance_double :
  (forall r : Running.t,
      Int64.in_range (2 * Training.Action (Running.Training r)) ->
      moderate (Training.LenStep (Running.Training r)) = true ->
      Running.distance
        (Running_with_Action r (2 * Training.Action (Running.Training r))) =
        (2 * Running.distance r)%float) /\
  (forall w : Walking.t,
      Int64.in_range (2 * Training.Action (Walking.Training w)) ->
      moderate (Training.LenStep (Walking.Training w)) = true ->
      Walking.distance
        (Walking_with_Action w (2 * Training.Action (Walking.Training w))) =
        (2 * Walking.distance w)%float).
Proof.
  split.
  - intros r Ha HL. apply (Training_double_Action (Running.Training r) Ha HL).
  - intros w Ha HL. apply (Training_double_Action (Walking.Training w) Ha HL).
Qed.

Lemma distance_double_witness :
  Running.distance (Running_with_Action running 10000) =
    (2 * Running.distance running)%float /\
  Walking.distance (Walking_with_Action walking 40000) =
    (2 * Walking.distance walking)%float.
Proof.
  split.
  - apply (proj1 distance_double running).
    + vm_compute. split; discriminate.
    + vm_compute. reflexivity.
  - apply (proj2 distance_double walking).
    + vm_compute. split; discriminate.
    + vm_compute. reflexivity.
Defined.

(** * Further properties of the computations

    Ranges of the results (never negative, never NaN), the sessions without
    duration or without action, and the exactness of the guard of the mean
    speed. *)

(** ** Rounding keeps the sign *)

Lemma shr_1_nonneg mrs : 0 <= shr_m mrs -> 0 <= shr_m (shr_1 mrs).
Proof.
  destruct mrs as [m r s]. simpl shr_m at 1. intros H.
  destruct m as [|[p|p|]|p]; simpl; lia.
Qed.

Lemma iter_shr_1_nonneg n : forall mrs,
  0 <= shr_m mrs -> 0 <= shr_m (iter_pos shr_1 n mrs).
Proof.
  induction n as [n IH|n IH|]; intros mrs H; simpl iter_pos.
  - apply IH, IH, shr_1_nonneg, H.
  - apply IH, IH, H.
  - apply shr_1_nonneg, H.
Qed.

Lemma shr_fexp_nonneg m e l :
  0 <= m -> 0 <= shr_m (fst (shr_fexp prec emax m e l)).
Proof.
  intros H. unfold shr_fexp, shr.
  destruct (fexp prec emax (Zdigits2 m + e) - e) as [|n|n]; simpl fst;
    try (rewrite shr_m_of_loc; exact H).
  apply iter_shr_1_nonneg. rewrite shr_m_of_loc. exact H.
Qed.

Lemma round_nearest_even_nonneg m l : 0 <= m -> 0 <= round_nearest_even m l.
Proof.
  intros H. unfold round_nearest_even.
  destruct l as [|[]]; try lia. destruct (Z.even m); lia.
Qed.

(** Rounding keeps the sign and never yields NaN. *)
Lemma binary_round_aux_signed s m e l :
  0 <= m -> SFsigned s (binary_round_aux prec emax s m e l).
Proof.
  intros H. unfold binary_round_aux.
  pose proof (shr_fexp_nonneg m e l H) as H1.
  destruct (shr_fexp prec emax m e l) as [mrs' e']. simpl fst in H1.
  pose proof (shr_fexp_nonneg _ e' loc_Exact
                (round_nearest_even_nonneg _ (loc_of_shr_record mrs') H1))
    as H2.
  destruct (shr_fexp prec emax
              (round_nearest_even (shr_m mrs') (loc_of_shr_record mrs'))
              e' loc_Exact) as [mrs'' e''].
  simpl fst in H2. unfold SFsigned.
  destruct (shr_m mrs'') as [|p|p]; [left; reflexivity| |lia].
  destruct (e'' <=? emax - prec); [right; left; eauto|right; right; reflexivity].
Qed.

Lemma digits_le_mono p q : Zpos p <= Zpos q -> digits p <= digits q.
Proof.
  intros H. pose proof (digits_bounds p) as Bp.
  pose proof (digits_bounds q) as Bq. pose proof (digits_pos q).
  assert (digits p - 1 < digits q); [|lia].
  apply (Z.pow_lt_mono_r_iff 2); lia.
Qed.

Lemma digits_add p q :
  digits (p + q) <= Z.max (digits p) (digits q) + 1.
Proof.
  pose proof (digits_bounds p) as Bp. pose proof (digits_bounds q) as Bq.
  pose proof (digits_bounds (p + q)) as B.
  pose proof (digits_pos p). pose proof (digits_pos q).
  rewrite Pos2Z.inj_add in B.
  assert (Mp : 2 ^ digits p <= 2 ^ Z.max (digits p) (digits q))
    by (apply Z.pow_le_mono_r; lia).
  assert (Mq : 2 ^ digits q <= 2 ^ Z.max (digits p) (digits q))
    by (apply Z.pow_le_mono_r; lia).
  assert (digits (p + q) - 1 < Z.max (digits p) (digits q) + 1); [|lia].
  apply (Z.pow_lt_mono_r_iff 2); [lia|lia|].
  rewrite Z.pow_add_r by lia. change (2 ^ 1) with 2. lia.
Qed.

(** [float64(z)] for a nonzero 64-bit [z]: a normal number of the sign of
    [z], at least 1 in magnitude. *)
Lemma binary_normalize_int z :
  z <> 0 -> - 2 ^ 63 <= z <= 2 ^ 63 ->
  exists m e,
    binary_normalize prec emax z 0 false = S754_finite (z <? 0) m e /\
    digits m = 53 /\ -52 <= e <= 12.
Proof.
  intros Hz Hr. destruct z as [|p|p]; [lia| |].
  - destruct (binary_round_int false p) as (m & e & Hm & He & R & _);
      [apply digits_le_64; lia|].
    exists m, e. repeat split; try lia. exact R.
  - destruct (binary_round_int true p) as (m & e & Hm & He & R & _);
      [apply digits_le_64; lia|].
    exists m, e. repeat split; try lia. exact R.
Qed.

Lemma shl_align_digits m e e' :
  e' <= e ->
  exists p, shl_align m e e' = (p, e') /\ digits p = digits m + (e - e').
Proof.
  intros H. rewrite shl_align_spec.
  destruct (Z.ltb_spec e' e) as [L|L].
  - eexists. split; [reflexivity|]. rewrite digits_iter_xO. lia.
  - exists m. split; [f_equal; lia|lia].
Qed.

(** The sum of two normal numbers of the same sign and of moderate
    exponents is a finite number of that sign, never zero. *)
Lemma SFadd_same_sign s mx ex my ey :
  digits mx = 53 -> digits my = 53 ->
  -200 <= ex <= 200 -> -200 <= ey <= 200 ->
  exists m e,
    SFadd prec emax (S754_finite s mx ex) (S754_finite s my ey) =
      S754_finite s m e.
Proof.
  intros Hx Hy Bx By. unfold SFadd.
  destruct (shl_align_digits mx ex (Z.min ex ey)) as (px & Ex & Dx); [lia|].
  destruct (shl_align_digits my ey (Z.min ex ey)) as (py & Ey & Dy); [lia|].
  rewrite Ex, Ey. simpl fst.
  assert (S : binary_normalize prec emax
                (cond_Zopp s (Zpos px) + cond_Zopp s (Zpos py))
                (Z.min ex ey) false =
              binary_round prec emax s (px + py) (Z.min ex ey)).
  { destruct s; reflexivity. }
  rewrite S. clear S.
  pose proof (digits_add px py) as Da.
  assert (Dl : digits px <= digits (px + py))
    by (apply digits_le_mono; lia).
  unfold binary_round.
  change (Zpos (digits2_pos (px + py))) with (digits (px + py)).
  rewrite fexp_linear, shl_align_spec by lia.
  destruct (Z.ltb_spec (digits (px + py) + Z.min ex ey - 53) (Z.min ex ey));
    [lia|].
  destruct (binary_round_aux_normal (px + py) loc_Exact)
    as (m & k & Hm & Hk & R); [lia|].
  rewrite R by lia.
  destruct (Z.leb_spec (Z.min ex ey + k) 971); [|lia].
  eauto.
Qed.

Lemma Prim2SF_Hour_ns :
  Prim2SF 3600000000000 = S754_finite false 7372800000000000 (-11).
Proof. vm_compute. reflexivity. Qed.

(** [d.Hours()] for a nonzero [d]: finite, not zero, of the sign of [d]. *)
Lemma Hours_finite d :
  Int64.in_range d -> d <> 0 ->
  exists m e, Prim2SF (time.Hours d) = S754_finite (d <? 0) m e.
Proof.
  unfold Int64.in_range, Int64.min_int, Int64.max_int. intros Hr Hd.
  unfold time.Hours. cbv zeta.
  assert (HH : time.Hour = 3600000000000) by reflexivity.
  pose proof (Z.quot_rem' d time.Hour) as QR.
  pose proof (Z.rem_bound_abs d time.Hour ltac:(rewrite HH; lia)) as RB.
  assert (Sq : 0 <= d -> 0 <= Z.quot d time.Hour)
    by (intros; apply Z.quot_pos; rewrite ?HH; lia).
  assert (Sq' : d <= 0 -> Z.quot d time.Hour <= 0).
  { intros. rewrite <- (Z.opp_involutive d), Z.quot_opp_l by (rewrite HH; lia).
    assert (0 <= Z.quot (- d) time.Hour)
      by (apply Z.quot_pos; rewrite ?HH; lia). lia. }
  assert (Sr : 0 <= d -> 0 <= Z.rem d time.Hour)
    by (intros; apply Z.rem_nonneg; rewrite ?HH; lia).
  assert (Sr' : d <= 0 -> Z.rem d time.Hour <= 0)
    by (intros; apply Z.rem_nonpos; rewrite ?HH; lia).
  rewrite HH in *.
  set (hour := Z.quot d 3600000000000) in *.
  set (nsec := Z.rem d 3600000000000) in *.
  assert (P63 : 2 ^ 63 = 9223372036854775808) by reflexivity.
  rewrite P63 in *.
  rewrite add_spec, div_spec, !Prim2SF_to_float64, Prim2SF_Hour_ns
    by (rewrite P63; lia).
  unfold SF64add, SF64div.
  destruct (Z.eq_dec nsec 0) as [N0|Nn]; destruct (Z.eq_dec hour 0) as [H0|Hn].
  - exfalso. lia.
  - rewrite N0.
    destruct (binary_normalize_int hour Hn) as (m & e & R & _);
      [rewrite P63; lia|].
    rewrite R. exists m, e. simpl.
    replace (hour <? 0) with (d <? 0); [reflexivity|].
    destruct (Z.ltb_spec d 0), (Z.ltb_spec hour 0); try reflexivity; lia.
  - rewrite H0.
    destruct (binary_normalize_int nsec Nn) as (m & e & R & Hm & He);
      [rewrite P63; lia|].
    rewrite R.
    assert (Hc : digits 7372800000000000 = 53) by reflexivity.
    destruct (SFdiv_normal m 7372800000000000 Hm Hc)
      as (mq & kq & Hmq & Hkq & RQ).
    rewrite RQ by lia.
    destruct (Z.leb_spec (e - -11 + kq) 971); [|lia].
    exists mq, (e - -11 + kq). simpl.
    replace (nsec <? 0) with (d <? 0);
      [destruct (d <? 0); reflexivity|].
    destruct (Z.ltb_spec d 0), (Z.ltb_spec nsec 0); try reflexivity; lia.
  - destruct (binary_normalize_int hour Hn) as (mh & eh & Rh & Hmh & Heh);
      [rewrite P63; lia|].
    destruct (binary_normalize_int nsec Nn) as (mn & en & Rn & Hmn & Hen);
      [rewrite P63; lia|].
    rewrite Rh, Rn.
    assert (Hc : digits 7372800000000000 = 53) by reflexivity.
    destruct (SFdiv_normal mn 7372800000000000 Hmn Hc)
      as (mq & kq & Hmq & Hkq & RQ).
    rewrite RQ by lia.
    destruct (Z.leb_spec (en - -11 + kq) 971); [|lia].
    replace (hour <? 0) with (d <? 0)
      by (destruct (Z.ltb_spec d 0), (Z.ltb_spec hour 0);
          try reflexivity; lia).
    replace (xorb (nsec <? 0) false) with (d <? 0).
    + apply SFadd_same_sign; try assumption; lia.
    + rewrite xorb_false_r.
      destruct (Z.ltb_spec d 0), (Z.ltb_spec nsec 0); try reflexivity; lia.
Qed.

Lemma SFsigned_nonneg x : SFsigned false x -> SFnonneg x = true.
Proof. intros [->|[(m & e & ->)| ->]]; reflexivity. Qed.

Lemma SFmul_nonneg x y :
  SFfinite_nonneg x = true -> SFfinite_nonneg y = true ->
  SFnonneg (SFmul prec emax x y) = true.
Proof.
  destruct x as [sx|sx| |[|] mx ex]; try discriminate;
    destruct y as [sy|sy| |[|] my ey]; try discriminate; intros _ _;
    try reflexivity.
  unfold SFmul. apply SFsigned_nonneg. apply binary_round_aux_signed. lia.
Qed.

Lemma SFdiv_core_binary_nonneg mx ex my ey :
  0 <= fst (fst (SFdiv_core_binary prec emax (Zpos mx) ex (Zpos my) ey)).
Proof.
  unfold SFdiv_core_binary.
  set (s := ex - ey - _).
  set (m' := match s with Zpos _ => Z.shiftl (Zpos mx) s | 0 => Zpos mx
                     | Zneg _ => 0 end).
  assert (H : 0 <= m').
  { unfold m'. destruct s; try lia. apply Z.shiftl_nonneg. lia. }
  rewrite div_eucl_div. simpl fst. apply Z.div_pos; lia.
Qed.

Lemma SFdiv_nonneg x m e :
  SFnonneg x = true ->
  SFnonneg (SFdiv prec emax x (S754_finite false m e)) = true.
Proof.
  destruct x as [sx|[|]| |[|] mx ex]; try discriminate; intros _;
    try reflexivity.
  unfold SFdiv.
  pose proof (SFdiv_core_binary_nonneg mx ex m e) as H.
  destruct (SFdiv_core_binary prec emax (Zpos mx) ex (Zpos m) e)
    as [[mz ez] lz].
  simpl in H. apply SFsigned_nonneg. apply binary_round_aux_signed. exact H.
Qed.

Lemma leb_zero_nonneg x : SFnonneg (Prim2SF x) = true -> (0 <=? x)%float = true.
Proof.
  intros H. rewrite leb_spec.
  change (Prim2SF 0) with (S754_zero false).
  destruct (Prim2SF x) as [s|[|]| |[|] m e]; try discriminate; reflexivity.
Qed.

Lemma nonneg_finite_cases x :
  nonneg_finite x = true -> SFfinite_nonneg (Prim2SF x) = true.
Proof.
  unfold nonneg_finite. intros H. apply andb_prop in H. destruct H as [Lo Hi].
  rewrite leb_spec in Lo. rewrite ltb_spec in Hi.
  change (Prim2SF 0) with (S754_zero false) in Lo.
  change (Prim2SF infinity) with (S754_infinity false) in Hi.
  destruct (Prim2SF x) as [s|[|]| |[|] m e]; try discriminate; reflexivity.
Qed.

Lemma to_float64_nonneg a :
  0 <= a <= 2 ^ 63 ->
  SFfinite_nonneg (Prim2SF (Int64.to_float64 a)) = true.
Proof.
  intros H. rewrite Prim2SF_to_float64 by lia.
  destruct (Z.eq_dec a 0) as [->|Nz]; [reflexivity|].
  destruct (binary_normalize_int a Nz) as (m & e & R & _); [lia|].
  rewrite R. destruct (Z.ltb_spec a 0); [lia|reflexivity].
Qed.

Lemma Prim2SF_1000 :
  Prim2SF (const MInKm) = S754_finite false 8796093022208000 (-43).
Proof. vm_compute. reflexivity. Qed.

Lemma distance_SFnonneg (t : Training.t) :
  0 <= Training.Action t <= Int64.max_int ->
  nonneg_finite (Training.LenStep t) = true ->
  SFnonneg (Prim2SF (Training.distance t)) = true.
Proof.
  unfold Int64.max_int. intros Ha HL. unfold Training.distance.
  rewrite div_spec, mul_spec, Prim2SF_1000.
  apply SFdiv_nonneg. apply SFmul_nonneg.
  - apply to_float64_nonneg. lia.
  - apply nonneg_finite_cases, HL.
Qed.

(** X3. The distance of a session with a non-negative number of actions and a
    finite non-negative step length is never negative and never NaN. *)
Theorem distance_nonneg (t : Training.t) :
  0 <= Training.Action t <= Int64.max_int ->
  nonneg_finite (Training.LenStep t) = true ->
  (0 <=? Training.distance t)%float = true.
Proof.
  intros Ha HL. apply leb_zero_nonneg, distance_SFnonneg; assumption.
Qed.

Lemma distance_nonneg_witness :
  (0 <=? Training.distance (Walking.Training walking))%float = true.
Proof.
  apply (distance_nonneg (Walking.Training walking)).
  - vm_compute. split; discriminate.
  - reflexivity.
Defined.

(** X4. With a positive duration besides, the mean speed is never negative
    and never NaN. *)
Theorem meanSpeed_nonneg (t : Training.t) :
  0 <= Training.Action t <= Int64.max_int ->
  nonneg_finite (Training.LenStep t) = true ->
  0 < Training.Duration t <= Int64.max_int ->
  Training.meanSpeed t =
    (Training.distance t / time.Hours (Training.Duration t))%float /\
  (0 <=? Training.meanSpeed t)%float = true.
Proof.
  intros Ha HL Hd. unfold Int64.max_int in Hd.
  destruct (Hours_finite (Training.Duration t)) as (m & e & P).
  { unfold Int64.in_range, Int64.min_int, Int64.max_int. lia. }
  { lia. }
  destruct (Z.ltb_spec (Training.Duration t) 0); [lia|].
  assert (G : (time.Hours (Training.Duration t) =? 0)%float = false).
  { rewrite eqb_spec, P. reflexivity. }
  unfold Training.meanSpeed. rewrite G. split; [reflexivity|].
  apply leb_zero_nonneg. rewrite div_spec, P.
  apply SFdiv_nonneg, distance_SFnonneg; assumption.
Qed.

Lemma meanSpeed_nonneg_witness :
  Training.meanSpeed (Walking.Training walking) =
    (Training.distance (Walking.Training walking) / 3.75)%float /\
  (0 <=? Training.meanSpeed (Walking.Training walking))%float = true.
Proof.
  apply (meanSpeed_nonneg (Walking.Training walking)).
  - vm_compute. split; discriminate.
  - reflexivity.
  - vm_compute. split; [reflexivity|discriminate].
Defined.



Lemma is_finite_cases x :
  is_finite x = true ->
  (exists s, Prim2SF x = S754_zero s) \/
  (exists s m e, Prim2SF x = S754_finite s m e).
Proof.
  unfold is_finite, is_nan, is_infinity. intros H.
  apply negb_true_iff, orb_false_iff in H. destruct H as [N I].
  apply negb_false_iff in N.
  rewrite eqb_spec in N. rewrite eqb_spec, abs_spec in I.
  change (Prim2SF infinity) with (S754_infinity false) in I.
  destruct (Prim2SF x) as [s|s| |s m e]; try discriminate; eauto.
Qed.

(** X2. A session without any action has distance zero and mean speed zero,
    whatever its finite step length and its duration. *)
Theorem no_Action_zero (t : Training.t) :
  Training.Action t = 0 ->
  is_finite (Training.LenStep t) = true ->
  Int64.in_range (Training.Duration t) ->
  (Training.distance t =? 0)%float = true /\
  (Training.meanSpeed t =? 0)%float = true.
Proof.
  intros Ha HL Hr.
  assert (D : exists s, Prim2SF (Training.distance t) = S754_zero s).
  { unfold Training.distance. rewrite Ha.
    rewrite div_spec, mul_spec, Prim2SF_1000.
    change (Prim2SF (Int64.to_float64 0)) with (S754_zero false).
    destruct (is_finite_cases _ HL) as [(s & ->)|(s & m & e & ->)];
      simpl; eauto. }
  destruct D as (sd & D).
  split.
  - rewrite eqb_spec, D. reflexivity.
  - unfold Training.meanSpeed.
    destruct (Z.eq_dec (Training.Duration t) 0) as [Z|N].
    + rewrite Z. reflexivity.
    + destruct (Hours_finite _ Hr N) as (m & e & P).
      assert (G : (time.Hours (Training.Duration t) =? 0)%float = false).
      { rewrite eqb_spec, P. destruct (_ <? 0); reflexivity. }
      rewrite G. rewrite eqb_spec, div_spec, D, P. reflexivity.
Qed.

Lemma no_Action_zero_witness :
  (Training.distance walking_no_step =? 0)%float = true /\
  (Training.meanSpeed walking_no_step =? 0)%float = true.
Proof.
  apply (no_Action_zero walking_no_step).
  - reflexivity.
  - reflexivity.
  - vm_compute. split; discriminate.
Defined.

(** A constant between 2^-8 and 2 times a number of ordinary magnitude is a
    finite number. *)
Lemma SFmul_moderate sc mc ec sw mw ew :
  digits mc = 53 -> digits mw = 53 ->
  -60 <= ec <= 0 -> -1000 <= ew <= 900 ->
  exists m e,
    SFmul prec emax (S754_finite sc mc ec) (S754_finite sw mw ew) =
      S754_finite (xorb sc sw) m e /\
    digits m = 53 /\ -1008 <= e <= 954.
Proof.
  intros Hc Hw Bc Bw.
  destruct (SFmul_normal mc mw Hc Hw) as (m & k & Hm & Hk & R).
  rewrite R by lia. destruct (Z.leb_spec (ec + ew + k) 971); [|lia].
  exists m, (ec + ew + k). repeat split; try assumption; lia.
Qed.

(** X5. A Running session of zero duration burns zero calories, for every
    weight of ordinary magnitude. *)
Theorem Running_Calories_no_time (r : Running.t) :
  Training.Duration (Running.Training r) = 0 ->
  moderate (Training.Weight (Running.Training r)) = true ->
  (Running.Calories r =? 0)%float = true.
Proof.
  destruct r as [[kind action len duration weight]]. simpl.
  intros -> Hw.
  assert (E : Running.Calories
                (Running.Build (Training.Build kind action len 0 weight)) =
              (1.79 * weight / 1000 * 0 * 60)%float) by reflexivity.
  rewrite E. clear E.
  destruct (moderate_normal _ Hw) as (sw & mw & ew & P & Hm & He).
  rewrite eqb_spec, !mul_spec, div_spec, mul_spec, P.
  assert (C : Prim2SF 1.79 = S754_finite false 8061443332993188 (-52))
    by (vm_compute; reflexivity).
  assert (K : Prim2SF 1000 = S754_finite false 8796093022208000 (-43))
    by (vm_compute; reflexivity).
  rewrite C, K. unfold SF64mul, SF64div.
  destruct (SFmul_moderate false 8061443332993188 (-52) sw mw ew)
    as (m1 & e1 & R1 & Hm1 & He1); try assumption; try reflexivity; try lia.
  rewrite R1.
  destruct (SFdiv_normal m1 8796093022208000 Hm1 eq_refl)
    as (m2 & k2 & Hm2 & Hk2 & R2).
  rewrite R2 by lia. destruct (Z.leb_spec (e1 - -43 + k2) 971); [|lia].
  change (Prim2SF 0) with (S754_zero false).
  destruct sw; reflexivity.
Qed.

Lemma Running_Calories_no_time_witness :
  (Running.Calories (Running.Build running_no_time) =? 0)%float = true.
Proof.
  apply (Running_Calories_no_time (Running.Build running_no_time));
    reflexivity.
Defined.

(** X6. A Swimming session of zero duration burns zero calories, for every
    weight of ordinary magnitude. *)
Theorem Swimming_Calories_no_time (s : Swimming.t) :
  Training.Duration (Swimming.Training s) = 0 ->
  moderate (Training.Weight (Swimming.Training s)) = true ->
  (Swimming.Calories s =? 0)%float = true.
Proof.
  destruct s as [[kind action len duration weight] lengthPool countPool].
  simpl. intros -> Hw.
  assert (E : Swimming.Calories
                (Swimming.Build (Training.Build kind action len 0 weight)
                                lengthPool countPool) =
              (2.2 * weight * 0)%float) by reflexivity.
  rewrite E. clear E.
  destruct (moderate_normal _ Hw) as (sw & mw & ew & P & Hm & He).
  rewrite eqb_spec, !mul_spec, P.
  assert (C : Prim2SF 2.2 = S754_finite false 4953959590107546 (-51))
    by (vm_compute; reflexivity).
  rewrite C. unfold SF64mul.
  destruct (SFmul_moderate false 4953959590107546 (-51) sw mw ew)
    as (m1 & e1 & R1 & Hm1 & He1); try assumption; try reflexivity; try lia.
  rewrite R1.
  change (Prim2SF 0) with (S754_zero false).
  destruct sw; reflexivity.
Qed.

Lemma Swimming_Calories_no_time_witness :
  (Swimming.Calories swimming_no_time =? 0)%float = true.
Proof.
  apply (Swimming_Calories_no_time swimming_no_time); reflexivity.
Defined.

Lemma positive_finite_cases x :
  positive_finite x = true -> exists m e, Prim2SF x = S754_finite false m e.
Proof.
  unfold positive_finite. intros H. apply andb_prop in H. destruct H as [Lo Hi].
  rewrite ltb_spec in Lo, Hi.
  change (Prim2SF 0) with (S754_zero false) in Lo.
  change (Prim2SF infinity) with (S754_infinity false) in Hi.
  destruct (Prim2SF x) as [s|[|]| |[|] m e]; try discriminate; eauto.
Qed.

Lemma SFfinite_nonneg_nonneg x : SFfinite_nonneg x = true -> SFnonneg x = true.
Proof. destruct x as [s|[|]| |[|] m e]; try discriminate; reflexivity. Qed.

(** A non-negative number times a positive finite one. *)
Lemma SFmul_nonneg_pos x m e :
  SFnonneg x = true ->
  SFnonneg (SFmul prec emax x (S754_finite false m e)) = true.
Proof.
  destruct x as [sx|[|]| |[|] mx ex]; try discriminate; intros _;
    try reflexivity.
  unfold SFmul. apply SFsigned_nonneg, binary_round_aux_signed. lia.
Qed.

Lemma SFmul_pos_nonneg x m e :
  SFnonneg x = true ->
  SFnonneg (SFmul prec emax (S754_finite false m e) x) = true.
Proof.
  destruct x as [sx|[|]| |[|] mx ex]; try discriminate; intros _;
    try reflexivity.
  unfold SFmul. apply SFsigned_nonneg, binary_round_aux_signed. lia.
Qed.

Lemma binary_round_signed s m e : SFsigned s (binary_round prec emax s m e).
Proof.
  unfold binary_round. destruct (shl_align m e _) as [mz ez].
  apply binary_round_aux_signed. lia.
Qed.

(** A non-negative number plus a positive finite one. *)
Lemma SFadd_nonneg_pos x m e :
  SFnonneg x = true ->
  SFnonneg (SFadd prec emax x (S754_finite false m e)) = true.
Proof.
  destruct x as [sx|[|]| |[|] mx ex]; try discriminate; intros _;
    try reflexivity.
  unfold SFadd. simpl cond_Zopp.
  apply SFsigned_nonneg.
  change (Zpos (fst (shl_align mx ex (Z.min ex e))) +
          Zpos (fst (shl_align m e (Z.min ex e))))
    with (Zpos (fst (shl_align mx ex (Z.min ex e)) +
                fst (shl_align m e (Z.min ex e)))).
  apply binary_round_signed.
Qed.

Lemma meanSpeed_SFnonneg (t : Training.t) :
  0 <= Training.Action t <= Int64.max_int ->
  nonneg_finite (Training.LenStep t) = true ->
  0 < Training.Duration t <= Int64.max_int ->
  SFnonneg (Prim2SF (Training.meanSpeed t)) = true /\
  exists m e,
    Prim2SF (time.Hours (Training.Duration t)) = S754_finite false m e.
Proof.
  intros Ha HL Hd. unfold Int64.max_int in Hd.
  destruct (Hours_finite (Training.Duration t)) as (m & e & P).
  { unfold Int64.in_range, Int64.min_int, Int64.max_int. lia. }
  { lia. }
  destruct (Z.ltb_spec (Training.Duration t) 0); [lia|].
  assert (G : (time.Hours (Training.Duration t) =? 0)%float = false).
  { rewrite eqb_spec, P. reflexivity. }
  split; [|eauto].
  unfold Training.meanSpeed. rewrite G, div_spec, P.
  apply SFdiv_nonneg, distance_SFnonneg; assumption.
Qed.

(** X7. The calories of a Running session with a non-negative number of
    steps, a finite non-negative step length, a positive duration and a
    finite positive weight are never negative and never NaN. *)
Theorem Running_Calories_nonneg (r : Running.t) :
  0 <= Training.Action (Running.Training r) <= Int64.max_int ->
  nonneg_finite (Training.LenStep (Running.Training r)) = true ->
  0 < Training.Duration (Running.Training r) <= Int64.max_int ->
  positive_finite (Training.Weight (Running.Training r)) = true ->
  (0 <=? Running.Calories r)%float = true.
Proof.
  intros Ha HL Hd Hw.
  destruct (meanSpeed_SFnonneg _ Ha HL Hd) as (S & mh & eh & PH).
  destruct (positive_finite_cases _ Hw) as (mw & ew & PW).
  apply leb_zero_nonneg.
  unfold Running.Calories, Running.meanSpeed. cbv zeta.
  rewrite !mul_spec, div_spec, mul_spec, add_spec, mul_spec, PH, PW.
  change (Prim2SF (const MinInHours))
    with (S754_finite false 8444249301319680 (-47)).
  rewrite Prim2SF_1000.
  change (Prim2SF (const CaloriesMeanSpeedMultiplier))
    with (S754_finite false 5066549580791808 (-48)).
  change (Prim2SF CaloriesMeanSpeedShift)
    with (S754_finite false 8061443332993188 (-52)).
  apply SFmul_nonneg_pos, SFmul_nonneg_pos, SFdiv_nonneg, SFmul_nonneg_pos,
        SFadd_nonneg_pos, SFmul_pos_nonneg, S.
Qed.

Lemma Running_Calories_nonneg_witness :
  (0 <=? Running.Calories running)%float = true.
Proof.
  apply (Running_Calories_nonneg running).
  - vm_compute. split; discriminate.
  - reflexivity.
  - vm_compute. split; [reflexivity|discriminate].
  - reflexivity.
Defined.

Lemma Swimming_meanSpeed_SFnonneg (s : Swimming.t) :
  0 <= Swimming.LengthPool s -> 0 <= Swimming.CountPool s ->
  Int64.in_range (Swimming.LengthPool s * Swimming.CountPool s) ->
  0 < Training.Duration (Swimming.Training s) <= Int64.max_int ->
  SFnonneg (Prim2SF (Swimming.meanSpeed s)) = true /\
  exists m e,
    Prim2SF (time.Hours (Training.Duration (Swimming.Training s))) =
      S754_finite false m e.
Proof.
  intros HL HC Hr Hd. unfold Int64.max_int in Hd.
  destruct (Hours_finite (Training.Duration (Swimming.Training s)))
    as (m & e & P).
  { unfold Int64.in_range, Int64.min_int, Int64.max_int. lia. }
  { lia. }
  destruct (Z.ltb_spec (Training.Duration (Swimming.Training s)) 0); [lia|].
  assert (G : (time.Hours (Training.Duration (Swimming.Training s)) =? 0)%float
              = false).
  { rewrite eqb_spec, P. reflexivity. }
  split; [|eauto].
  unfold Swimming.meanSpeed. cbv zeta.
  rewrite G, !div_spec, P, Prim2SF_1000, Int64_mul_exact by exact Hr.
  apply SFdiv_nonneg, SFdiv_nonneg, SFfinite_nonneg_nonneg, to_float64_nonneg.
  unfold Int64.in_range, Int64.min_int, Int64.max_int in Hr. nia.
Qed.

(** X8. The mean speed and the calories of a Swimming session with a
    non-negative pool length and number of crossings whose product fits
    Go's [int], a positive duration and a finite positive weight are never
    negative and never NaN. *)
Theorem Swimming_nonneg (s : Swimming.t) :
  0 <= Swimming.LengthPool s -> 0 <= Swimming.CountPool s ->
  Int64.in_range (Swimming.LengthPool s * Swimming.CountPool s) ->
  0 < Training.Duration (Swimming.Training s) <= Int64.max_int ->
  positive_finite (Training.Weight (Swimming.Training s)) = true ->
  (0 <=? Swimming.meanSpeed s)%float = true /\
  (0 <=? Swimming.Calories s)%float = true.
Proof.
  intros HL HC Hr Hd Hw.
  destruct (Swimming_meanSpeed_SFnonneg s HL HC Hr Hd) as (S & mh & eh & PH).
  destruct (positive_finite_cases _ Hw) as (mw & ew & PW).
  split; apply leb_zero_nonneg; [exact S|].
  unfold Swimming.Calories. cbv zeta.
  rewrite !mul_spec, add_spec, PH, PW.
  change (Prim2SF (const SwimmingCaloriesWeightMultiplier))
    with (S754_finite false 4503599627370496 (-51)).
  change (Prim2SF SwimmingCaloriesMeanSpeedShift)
    with (S754_finite false 4953959590107546 (-52)).
  apply SFmul_nonneg_pos, SFmul_nonneg_pos, SFmul_nonneg_pos,
        SFadd_nonneg_pos, S.
Qed.

Lemma Swimming_nonneg_witness :
  (0 <=? Swimming.meanSpeed swimming)%float = true /\
  (0 <=? Swimming.Calories swimming)%float = true.
Proof.
  apply (Swimming_nonneg swimming).
  - vm_compute. discriminate.
  - vm_compute. discriminate.
  - vm_compute. split; discriminate.
  - vm_compute. split; [reflexivity|discriminate].
  - reflexivity.
Defined.

(** X9. Doubling the strokes of a Swimming session doubles the distance it
    reports and leaves its speed and its calories as they are. *)
Theorem Swimming_double_Action (s : Swimming.t) :
  Int64.in_range (2 * Training.Action (Swimming.Training s)) ->
  moderate (Training.LenStep (Swimming.Training s)) = true ->
  let s2 :=
    Swimming_with_Action s (2 * Training.Action (Swimming.Training s)) in
  InfoMessage.Distance (Swimming.TrainingInfo s2) =
    (2 * InfoMessage.Distance (Swimming.TrainingInfo s))%float /\
  InfoMessage.Speed (Swimming.TrainingInfo s2) =
    InfoMessage.Speed (Swimming.TrainingInfo s) /\
  Swimming.Calories s2 = Swimming.Calories s.
Proof.
  intros Ha HL. cbv zeta. split; [|split; reflexivity].
  apply (Training_double_Action (Swimming.Training s) Ha HL).
Qed.

Lemma Swimming_double_Action_witness :
  InfoMessage.Distance
    (Swimming.TrainingInfo (Swimming_with_Action swimming 4000)) =
    (2 * InfoMessage.Distance (Swimming.TrainingInfo swimming))%float /\
  InfoMessage.Speed
    (Swimming.TrainingInfo (Swimming_with_Action swimming 4000)) =
    InfoMessage.Speed (Swimming.TrainingInfo swimming) /\
  Swimming.Calories (Swimming_with_Action swimming 4000) =
    Swimming.Calories swimming.
Proof.
  apply (Swimming_double_Action swimming).
  - vm_compute. split; discriminate.
  - reflexivity.
Defined.

(** A Walking session of zero duration burns zero calories, for every
    weight and height of ordinary magnitude, when [math.Pow(0, 2)] is [0]. *)
Theorem Walking_Calories_no_time `{GoLib} (w : Walking.t) :
  math_Pow 0 2 = 0%float ->
  Training.Duration (Walking.Training w) = 0 ->
  moderate (Training.Weight (Walking.Training w)) = true ->
  moderate (Walking.Height w) = true ->
  (Walking.Calories w =? 0)%float = true.
Proof.
  destruct w as [[kind action len duration weight] height]. simpl.
  intros HP -> Hw Hh.
  assert (E : Walking.Calories
                (Walking.Build (Training.Build kind action len 0 weight)
                               height) =
              ((0.035 * weight
                + (math_Pow 0 2 / (height / 100)) * 0.029 * weight)
               * 0 * 60)%float) by reflexivity.
  rewrite E, HP. clear E.
  destruct (moderate_normal _ Hw) as (sw & mw & ew & PW & Hmw & Hew).
  destruct (moderate_normal _ Hh) as (sh & mh & eh & PHt & Hmh & Heh).
  rewrite eqb_spec, !mul_spec, add_spec, !mul_spec, !div_spec, PW, PHt.
  assert (C35 : Prim2SF 0.035 = S754_finite false 5044031582654956 (-57))
    by (vm_compute; reflexivity).
  assert (C100 : Prim2SF 100 = S754_finite false 7036874417766400 (-46))
    by (vm_compute; reflexivity).
  rewrite C35, C100. unfold SF64mul, SF64div, SF64add.
  destruct (SFdiv_normal mh 7036874417766400 Hmh eq_refl)
    as (m2 & k2 & Hm2 & Hk2 & R2).
  rewrite R2 by lia. destruct (Z.leb_spec (eh - -46 + k2) 971); [|lia].
  destruct (SFmul_moderate false 5044031582654956 (-57) sw mw ew)
    as (m1 & e1 & R1 & Hm1 & He1); try assumption; try reflexivity; try lia.
  rewrite R1.
  change (Prim2SF 0) with (S754_zero false).
  destruct sw, sh; reflexivity.
Qed.

